(** * Database maintenance of the observability server: [apps/server/src/cleanup.ts]

    A shallow embedding of [cleanupEventsDB] and [getDatabaseStats].  A
    database is a record of its four tables, as SQLite reads them at a
    path; the file system is a finite map from paths to nodes, console
    output is a list of entries, and the two entry points are written in a
    small state-and-exception monad so that the [try]/[catch] blocks of
    the source keep their shape.  What the environment decides - clocks,
    file sizes, failures, and how much of the write-ahead log has reached
    the main file when it is renamed - is a parameter of a run. *)

From Stdlib Require Import ZArith List Ascii String Bool Lia.
From stdpp Require Import gmap strings fin_maps.
Import ListNotations.

Open Scope string_scope.
Open Scope Z_scope.

(** ** JavaScript built-ins used by the source *)

Module Js.

(** One decimal digit as a character. *)
Definition digit (d : Z) : ascii := ascii_of_N (48 + Z.to_N d).

Fixpoint digits_go (fuel : nat) (n : Z) (acc : string) : string :=
  match fuel with
  | O => acc
  | S fuel' =>
      let acc' := String (digit (n mod 10)) acc in
      if n <? 10 then acc' else digits_go fuel' (n / 10) acc'
  end.

(** Decimal digits of a non-negative integer. *)
Definition digits (n : Z) : string :=
  digits_go (S (Z.to_nat (Z.log2 n))) n "".

(** [String(n)] / template interpolation of an integer-valued number. *)
Definition dec (n : Z) : string :=
  if n <? 0 then "-" +:+ digits (- n) else digits n.

(** [padStart(w, '0')] on the digits of a non-negative integer. *)
Fixpoint zeros (k : nat) : string :=
  match k with O => "" | S k' => String "0" (zeros k') end.

Definition pad (w : nat) (n : Z) : string :=
  let s := digits n in zeros (w - String.length s) +:+ s.

(** [(bytes / 1024 / 1024).toFixed(2)].  Dividing an integer below 2^53 by
    2^20 is exact in binary floating point, and [toFixed] picks the integer
    [n] with [n / 100] closest to the (absolute) value, the larger one on a
    tie; the sign is printed from the sign of the value. *)
Definition megabytes_toFixed2 (bytes : Z) : string :=
  let a := Z.abs bytes in
  let n := (200 * a + 1048576) / 2097152 in
  (if bytes <? 0 then "-" else "") +:+ digits (n / 100) +:+ "." +:+ pad 2 (n mod 100).

(** Civil date of a day number counted from 1970-01-01 (proleptic
    Gregorian calendar, as [Date] uses). *)
Definition civil_from_days (day : Z) : Z * Z * Z :=
  let z := day + 719468 in
  let era := z / 146097 in
  let doe := z - era * 146097 in
  let yoe := (doe - doe / 1460 + doe / 36524 - doe / 146096) / 365 in
  let doy := doe - (365 * yoe + yoe / 4 - yoe / 100) in
  let mp := (5 * doy + 2) / 153 in
  let d := doy - (153 * mp + 2) / 5 + 1 in
  let m := if mp <? 10 then mp + 3 else mp - 9 in
  let y := yoe + era * 400 + (if m <=? 2 then 1 else 0) in
  (y, m, d).

Definition year_string (y : Z) : string :=
  if (0 <=? y) && (y <=? 9999) then pad 4 y
  else (if y <? 0 then "-" else "+") +:+ pad 6 (Z.abs y).

(** [new Date(t).toISOString()] for a time value [t] in epoch
    milliseconds: [YYYY-MM-DDTHH:mm:ss.sssZ]. *)
Definition toISOString (t : Z) : string :=
  let day := t / 86400000 in
  let ms := t mod 86400000 in
  let '(y, m, d) := civil_from_days day in
  year_string y +:+ "-" +:+ pad 2 m +:+ "-" +:+ pad 2 d +:+ "T"
    +:+ pad 2 (ms / 3600000) +:+ ":" +:+ pad 2 (ms / 60000 mod 60) +:+ ":"
    +:+ pad 2 (ms / 1000 mod 60) +:+ "." +:+ pad 3 (ms mod 1000) +:+ "Z".

(** [s.replace(/[:.]/g, '-')]. *)
Fixpoint replace_colon_dot (s : string) : string :=
  match s with
  | EmptyString => EmptyString
  | String c r =>
      String (if (Ascii.eqb c ":" || Ascii.eqb c ".")%bool then "-"%char else c)
             (replace_colon_dot r)
  end.

End Js.

(** ** SQLite values and the JSON functions used by the statements *)

Module Sqlite.

(** The payload column holds the serialisation of a structured value, a
    JSON text; it is kept as the syntax tree of that text.  Texts are
    minified, as both the writer of the column and [json_object] produce
    them.  A string is a sequence of bytes, the UTF-8 encoding of its
    characters.  Number literals are integers that fit 64 bits: a longer
    literal, like one with a fraction or an exponent, is a floating-point
    number to SQLite and has no counterpart here.  A payload text that is
    not JSON at all is kept apart, see [TextEvent]. *)
#[local] Set Warnings "-register-all".
Inductive json : Type :=
| JNull
| JTrue
| JFalse
| JInt (n : Z)
| JStr (s : string)
| JArr (items : list json)
| JObj (members : list (string * json)).

Definition hex_digit (d : N) : ascii :=
  if (d <? 10)%N then ascii_of_N (48 + d) else ascii_of_N (87 + d).

Definition backslash : ascii := ascii_of_N 92.
Definition dquote : ascii := ascii_of_N 34.

(** Escaping of one character inside a JSON string literal: the quote and
    the backslash get a backslash, control characters their short form or
    a four-digit hexadecimal escape. *)
Definition escape_char (c : ascii) : string :=
  let n := N_of_ascii c in
  if (n =? 34)%N || (n =? 92)%N then String backslash (String c "")
  else if (n =? 8)%N then String backslash "b"
  else if (n =? 12)%N then String backslash "f"
  else if (n =? 10)%N then String backslash "n"
  else if (n =? 13)%N then String backslash "r"
  else if (n =? 9)%N then String backslash "t"
  else if (n <? 32)%N then
    String backslash ("u00" +:+ String (hex_digit (n / 16)) (String (hex_digit (n mod 16)) ""))
  else String c "".

Fixpoint escape (s : string) : string :=
  match s with
  | EmptyString => EmptyString
  | String c r => escape_char c +:+ escape r
  end.

Definition quote (s : string) : string :=
  String dquote (escape s +:+ String dquote "").

(** The minified text of a JSON value. *)
Fixpoint render (j : json) : string :=
  match j with
  | JNull => "null"
  | JTrue => "true"
  | JFalse => "false"
  | JInt n => Js.dec n
  | JStr s => quote s
  | JArr items =>
      "[" +:+ (fix go (l : list json) : string :=
                 match l with
                 | [] => ""
                 | x :: r =>
                     render x +:+ match r with [] => "" | _ => "," +:+ go r end
                 end) items +:+ "]"
  | JObj members =>
      "{" +:+ (fix go (l : list (string * json)) : string :=
                 match l with
                 | [] => ""
                 | (k, v) :: r =>
                     quote k +:+ ":" +:+ render v
                       +:+ match r with [] => "" | _ => "," +:+ go r end
                 end) members +:+ "}"
  end.

(** A value as an SQL expression sees it.  [SqlJson] is text carrying the
    JSON subtype, which [json_object] embeds instead of quoting. *)
Inductive sqlval : Type :=
| SqlNull
| SqlInt (n : Z)
| SqlText (s : string)
| SqlJson (j : json).

(** The keyword [true] of SQLite is the integer 1. *)
Definition sql_true : sqlval := SqlInt 1.

(** [LENGTH(X)] on a text: its number of characters up to the first NUL,
    not of bytes.  SQLite counts every byte except those of the form
    10xxxxxx that follow a byte 11xxxxxx, the continuation bytes of a
    multi-byte character. *)
Fixpoint characters_from (continuing : bool) (s : string) : nat :=
  match s with
  | EmptyString => O
  | String c rest =>
      let n := N_of_ascii c in
      if (n =? 0)%N then O
      else if continuing && (128 <=? n)%N && (n <? 192)%N
           then characters_from true rest
           else S (characters_from (192 <=? n)%N rest)
  end.

Definition characters (s : string) : Z := Z.of_nat (characters_from false s).


(** [LENGTH(payload)] on a payload that is JSON. *)
Definition LENGTH (payload : json) : Z := characters (render payload).

(** The first member with the given label, as SQLite looks labels up. *)
Fixpoint member (key : string) (members : list (string * json)) : option json :=
  match members with
  | [] => None
  | (k, v) :: r => if String.eqb k key then Some v else member key r
  end.

(** A JSON value as the SQL value that [json_extract] returns for it:
    [true] and [false] become the integers 1 and 0, a string loses its
    quotes, an integer (of 64 bits, as all integers here) stays one, and
    an array or object is handed on as JSON. *)
Definition sql_of_json (j : json) : sqlval :=
  match j with
  | JNull => SqlNull
  | JTrue => SqlInt 1
  | JFalse => SqlInt 0
  | JInt n => SqlInt n
  | JStr s => SqlText s
  | JArr _ | JObj _ => SqlJson j
  end.

(** [json_extract(X, '$.key')] on a JSON text [X]: NULL when [X] is not
    an object or has no such member.  (On a text that is not JSON the
    function raises an error: see [exec_stmt_text].) *)
Definition json_extract (doc : json) (key : string) : sqlval :=
  match doc with
  | JObj members =>
      match member key members with
      | Some v => sql_of_json v
      | None => SqlNull
      end
  | _ => SqlNull
  end.

Definition json_of_sql (v : sqlval) : json :=
  match v with
  | SqlNull => JNull
  | SqlInt n => JInt n
  | SqlText s => JStr s
  | SqlJson j => j
  end.

(** [json_object(label1, value1, ...)]. *)
Definition json_object (args : list (string * sqlval)) : json :=
  JObj (map (fun kv => (fst kv, json_of_sql (snd kv))) args).

End Sqlite.

Import Sqlite.

(** ** The tables of [events.db] *)

Record Event : Type := {
  id : Z;
  source_app : string;
  session_id : string;
  hook_event_type : string;
  payload : json;
  chat : option string;
  summary : option string;
  timestamp : Z
}.

(** A row of the events table whose payload column holds a text that is
    not JSON: the column is declared [TEXT NOT NULL] and nothing checks
    what is written to it. *)
Record TextEvent : Type := {
  text_id : Z;
  text_source_app : string;
  text_session_id : string;
  text_hook_event_type : string;
  text_payload : string;
  text_chat : option string;
  text_summary : option string;
  text_timestamp : Z
}.

Record Theme : Type := {
  theme_id : string;
  name : string;
  displayName : string;
  description : option string;
  colors : string;
  theme_isPublic : Z;
  authorId : option string;
  authorName : option string;
  theme_createdAt : Z;
  updatedAt : Z;
  tags : option string;
  downloadCount : option Z;
  ratingCount : option Z
  (* the REAL column [rating] is left out: no statement here reads it *)
}.

Record ThemeShare : Type := {
  share_id : string;
  share_themeId : string;
  shareToken : string;
  expiresAt : option Z;
  share_isPublic : Z;
  allowedUsers : option string;
  share_createdAt : Z;
  accessCount : option Z
}.

Record ThemeRating : Type := {
  rating_id : string;
  rating_themeId : string;
  userId : string;
  rating : Z;
  comment : option string;
  rating_createdAt : Z
}.

Record Index : Type := {
  index_name : string;
  index_table : string;
  index_column : string
}.

(** A database of the canonical shape: for each of the four tables,
    [None] while it has not been created and its rows otherwise (what
    exists under one of the four names is a table with the columns
    declared in the source), and the indexes by name. *)
Record database : Type := {
  journal_wal : bool;
  events : option (list Event);
  themes : option (list Theme);
  theme_shares : option (list ThemeShare);
  theme_ratings : option (list ThemeRating);
  indexes : list Index
}.

(** What [new Database(path)] finds when the path does not exist yet. *)
Definition empty_database : database :=
  {| journal_wal := false; events := None; themes := None;
     theme_shares := None; theme_ratings := None; indexes := [] |}.

(** ** Statements

    The SQL statements that the two entry points prepare and run, one
    constructor per statement text. *)

Inductive table : Type := TEvents | TThemes | TThemeShares | TThemeRatings.

Definition table_name (t : table) : string :=
  match t with
  | TEvents => "events"
  | TThemes => "themes"
  | TThemeShares => "theme_shares"
  | TThemeRatings => "theme_ratings"
  end.

Inductive stmt : Type :=
| PragmaJournalModeWal            (* PRAGMA journal_mode = WAL *)
| PragmaSynchronousNormal         (* PRAGMA synchronous = NORMAL *)
| DeleteOldEvents (cutoff : Z)    (* DELETE FROM events WHERE timestamp < ? *)
| TruncateLargePayloads (cutoff : Z)
                                  (* UPDATE events SET payload = json_object(...)
                                     WHERE LENGTH(payload) > 10000 AND timestamp < ? *)
| DeleteExpiredShares (now : Z)   (* DELETE FROM theme_shares
                                     WHERE expiresAt IS NOT NULL AND expiresAt < ? *)
| Vacuum
| Reindex
| Analyze
| CreateTable (t : table)         (* CREATE TABLE IF NOT EXISTS ... *)
| CreateIndex (i : Index)         (* CREATE INDEX IF NOT EXISTS ... ON ...(...) *)
| CountEvents                     (* SELECT COUNT( * ) FROM events *)
| CountEventsAfter (cutoff : Z)   (* ... WHERE timestamp > ? *)
| CountEventsBefore (cutoff : Z)  (* ... WHERE timestamp < ? *)
| CountLargePayloads.             (* ... WHERE LENGTH(payload) > 10000 *)

(** What can be asked of the operating system or of SQLite, and may fail
    for reasons outside the program. *)
Inductive op : Type :=
| OpOpen (path : string)
| OpSql (path : string) (s : stmt)
| OpMkdir (path : string)
| OpRename (src dst : string).

Inductive error : Type :=
| Fault (o : op)                       (* failure reported by the environment *)
| CantOpen (path : string)             (* unable to open database file *)
| NotADatabase (path : string)         (* file is not a database *)
| NoSuchTable (t : string)             (* no such table: t *)
| MalformedJson                        (* malformed JSON *)
| FsError (code : string) (o : op).    (* ENOENT, EEXIST, ENOTDIR, EISDIR *)

(** *** Row-level meaning of the data statements *)

Definition is_old (cutoff : Z) (e : Event) : bool := timestamp e <? cutoff.

(** [DELETE FROM events WHERE timestamp < cutoff]: the rows that stay. *)
Definition delete_old_events (cutoff : Z) (evs : list Event) : list Event :=
  List.filter (fun e => negb (is_old cutoff e)) evs.

Definition set_payload (e : Event) (p : json) : Event :=
  {| id := id e; source_app := source_app e; session_id := session_id e;
     hook_event_type := hook_event_type e; payload := p;
     chat := chat e; summary := summary e; timestamp := timestamp e |}.

(** The [json_object(...)] expression of the UPDATE, evaluated on the
    payload the row has before the update. *)
Definition truncation_marker (p : json) : json :=
  json_object
    [ ("truncated", sql_true);
      ("original_size", SqlInt (LENGTH p));
      ("source_app", json_extract p "source_app");
      ("session_id", json_extract p "session_id");
      ("hook_event_name", json_extract p "hook_event_name") ].

(** The WHERE clause of the UPDATE. *)
Definition truncation_applies (cutoff : Z) (e : Event) : bool :=
  (10000 <? LENGTH (payload e)) && (timestamp e <? cutoff).

Definition truncate_event (cutoff : Z) (e : Event) : Event :=
  if truncation_applies cutoff e
  then set_payload e (truncation_marker (payload e))
  else e.

Definition truncate_large_payloads (cutoff : Z) (evs : list Event) : list Event :=
  List.map (truncate_event cutoff) evs.

(** The WHERE clause of the share deletion. *)
Definition share_expired (now : Z) (s : ThemeShare) : bool :=
  match expiresAt s with
  | Some t => t <? now
  | None => false
  end.

Definition delete_expired_shares (now : Z) (shares : list ThemeShare) : list ThemeShare :=
  List.filter (fun s => negb (share_expired now s)) shares.

(** Number of rows satisfying a condition ([COUNT( * )], and [changes]). *)
Definition count {A : Type} (f : A -> bool) (l : list A) : Z :=
  Z.of_nat (List.length (List.filter f l)).

Definition set_wal (d : database) : database :=
  {| journal_wal := true; events := events d; themes := themes d;
     theme_shares := theme_shares d; theme_ratings := theme_ratings d;
     indexes := indexes d |}.

Definition set_events (d : database) (evs : list Event) : database :=
  {| journal_wal := journal_wal d; events := Some evs; themes := themes d;
     theme_shares := theme_shares d; theme_ratings := theme_ratings d;
     indexes := indexes d |}.

Definition set_shares (d : database) (shares : list ThemeShare) : database :=
  {| journal_wal := journal_wal d; events := events d; themes := themes d;
     theme_shares := Some shares; theme_ratings := theme_ratings d;
     indexes := indexes d |}.

Definition set_indexes (d : database) (l : list Index) : database :=
  {| journal_wal := journal_wal d; events := events d; themes := themes d;
     theme_shares := theme_shares d; theme_ratings := theme_ratings d;
     indexes := l |}.

Definition has_table (d : database) (t : string) : bool :=
  (String.eqb t "events" && bool_decide (is_Some (events d)))
  || (String.eqb t "themes" && bool_decide (is_Some (themes d)))
  || (String.eqb t "theme_shares" && bool_decide (is_Some (theme_shares d)))
  || (String.eqb t "theme_ratings" && bool_decide (is_Some (theme_ratings d))).

Definition has_index (d : database) (n : string) : bool :=
  existsb (fun i => String.eqb (index_name i) n) (indexes d).

(** [CREATE TABLE IF NOT EXISTS]: an existing table keeps its rows. *)
Definition create_table (t : table) (d : database) : database :=
  let keep {A} (o : option (list A)) : option (list A) :=
    match o with Some rows => Some rows | None => Some [] end in
  match t with
  | TEvents =>
      {| journal_wal := journal_wal d; events := keep (events d); themes := themes d;
         theme_shares := theme_shares d; theme_ratings := theme_ratings d;
         indexes := indexes d |}
  | TThemes =>
      {| journal_wal := journal_wal d; events := events d; themes := keep (themes d);
         theme_shares := theme_shares d; theme_ratings := theme_ratings d;
         indexes := indexes d |}
  | TThemeShares =>
      {| journal_wal := journal_wal d; events := events d; themes := themes d;
         theme_shares := keep (theme_shares d); theme_ratings := theme_ratings d;
         indexes := indexes d |}
  | TThemeRatings =>
      {| journal_wal := journal_wal d; events := events d; themes := themes d;
         theme_shares := theme_shares d; theme_ratings := keep (theme_ratings d);
         indexes := indexes d |}
  end.

(** One statement on a database: the number it reports ([changes] of a
    write, [count] of a SELECT, 0 otherwise) and the database afterwards. *)
Definition exec_stmt (s : stmt) (d : database) : error + (Z * database) :=
  let on_events (k : list Event -> Z * database) :=
    match events d with
    | Some evs => inr (k evs)
    | None => inl (NoSuchTable "events")
    end in
  match s with
  | PragmaJournalModeWal => inr (0, set_wal d)
  | PragmaSynchronousNormal => inr (0, d)
  | DeleteOldEvents cutoff =>
      on_events (fun evs =>
        (count (is_old cutoff) evs, set_events d (delete_old_events cutoff evs)))
  | TruncateLargePayloads cutoff =>
      on_events (fun evs =>
        (count (truncation_applies cutoff) evs,
         set_events d (truncate_large_payloads cutoff evs)))
  | DeleteExpiredShares now =>
      match theme_shares d with
      | Some shares =>
          inr (count (share_expired now) shares,
               set_shares d (delete_expired_shares now shares))
      | None => inl (NoSuchTable "theme_shares")
      end
  | Vacuum | Reindex | Analyze => inr (0, d)
  | CreateTable t => inr (0, create_table t d)
  | CreateIndex i =>
      if has_table d (index_table i) then
        inr (0, if has_index d (index_name i) then d
                else set_indexes d (indexes d ++ [i]))
      else inl (NoSuchTable (index_table i))
  | CountEvents => on_events (fun evs => (count (fun _ => true) evs, d))
  | CountEventsAfter cutoff =>
      on_events (fun evs => (count (fun e => cutoff <? timestamp e) evs, d))
  | CountEventsBefore cutoff =>
      on_events (fun evs => (count (fun e => timestamp e <? cutoff) evs, d))
  | CountLargePayloads =>
      on_events (fun evs => (count (fun e => 10000 <? LENGTH (payload e)) evs, d))
  end.

(** *** Rows whose payload is not JSON *)

(** The WHERE clause of the UPDATE on a row whose payload is not JSON. *)
Definition text_truncation_applies (cutoff : Z) (x : TextEvent) : bool :=
  (10000 <? characters (text_payload x)) && (text_timestamp x <? cutoff).

(** One statement on a database whose events table holds, besides the
    rows of [d], the rows [others] whose payload is not JSON.  They are
    deleted and counted like any row.  [json_extract] raises "malformed
    JSON" on such a payload, so the UPDATE fails as soon as its WHERE
    clause selects one of them, and a failed statement changes no row. *)
Definition exec_stmt_text (s : stmt) (d : database) (others : list TextEvent)
    : error + (Z * (database * list TextEvent)) :=
  match exec_stmt s d with
  | inl e => inl e
  | inr (n, d') =>
      match s with
      | DeleteOldEvents cutoff =>
          inr (n + count (fun x => text_timestamp x <? cutoff) others,
               (d', List.filter (fun x => negb (text_timestamp x <? cutoff)) others))
      | TruncateLargePayloads cutoff =>
          if existsb (text_truncation_applies cutoff) others
          then inl MalformedJson
          else inr (n, (d', others))
      | CountEvents =>
          inr (n + count (fun _ => true) others, (d', others))
      | CountEventsAfter cutoff =>
          inr (n + count (fun x => cutoff <? text_timestamp x) others, (d', others))
      | CountEventsBefore cutoff =>
          inr (n + count (fun x => text_timestamp x <? cutoff) others, (d', others))
      | CountLargePayloads =>
          inr (n + count (fun x => 10000 <? characters (text_payload x)) others,
               (d', others))
      | _ => inr (n, (d', others))
      end
  end.

(** ** File system, console and the run monad *)

(** What a path holds.  A database is held as what SQLite reads at its
    path.  In WAL mode that is the main file together with the
    write-ahead log kept in the side files [<path>-wal] and [<path>-shm];
    the two side files belong to the database node and have no entry of
    their own in the map, which says nothing about those two paths. *)
Inductive node : Type :=
| Dir
| DbFile (d : database)       (* a database whose payloads are all JSON *)
| Other                       (* a file that is not an SQLite database *)
| TextDbFile (d : database) (others : list TextEvent).
                              (* a database with payloads that are not JSON *)

Inductive log_entry : Type :=
| ConsoleLog (msg : string)
| ConsoleError (msg : string) (e : error).

Record state : Type := {
  fs : gmap string node;
  console : list log_entry
}.

Inductive outcome (A : Type) : Type :=
| Ok (a : A)
| Throw (e : error).
Arguments Ok {A} a.
Arguments Throw {A} e.

(** A computation runs on a state and either returns or throws; what it
    did to the state before throwing stays done. *)
Definition M (A : Type) : Type := state -> outcome A * state.

Definition ret {A : Type} (a : A) : M A := fun s => (Ok a, s).

Definition throw {A : Type} (e : error) : M A := fun s => (Throw e, s).

Definition bind {A B : Type} (m : M A) (k : A -> M B) : M B :=
  fun s =>
    match m s with
    | (Ok a, s') => k a s'
    | (Throw e, s') => (Throw e, s')
    end.

Definition try_catch {A : Type} (body : M A) (handler : error -> M A) : M A :=
  fun s =>
    match body s with
    | (Ok a, s') => (Ok a, s')
    | (Throw e, s') => handler e s'
    end.

Declare Scope run_scope.
Delimit Scope run_scope with run.
Notation "x <- m ;; k" := (bind m (fun x => k))
  (at level 100, m at next level, right associativity) : run_scope.
Notation "m ;; k" := (bind m (fun _ => k))
  (at level 100, right associativity) : run_scope.
Open Scope run_scope.

Definition console_log (msg : string) : M unit :=
  fun s => (Ok tt, {| fs := fs s; console := console s ++ [ConsoleLog msg] |}).

Definition console_error (msg : string) (e : error) : M unit :=
  fun s => (Ok tt, {| fs := fs s; console := console s ++ [ConsoleError msg e] |}).

Definition set_fs (s : state) (f : gmap string node) : state :=
  {| fs := f; console := console s |}.

(** The directory part of a path: what precedes its last slash. *)
Fixpoint dirname (p : string) : option string :=
  match p with
  | EmptyString => None
  | String c r =>
      match dirname r with
      | Some d => Some (String c d)
      | None => if Ascii.eqb c "/" then Some EmptyString else None
      end
  end.

Section Primitives.

(** Which requests the environment refuses during this run. *)
Variable faulty : op -> bool.

(** [new Database(path)]: opened read-write, created when absent (a
    write-ahead log left behind at a path without a main file is
    discarded). *)
Definition open_database (path : string) : M string :=
  fun s =>
    if faulty (OpOpen path) then (Throw (Fault (OpOpen path)), s)
    else match fs s !! path with
         | None => (Ok path, set_fs s (<[path := DbFile empty_database]> (fs s)))
         | Some Dir => (Throw (CantOpen path), s)
         | Some _ => (Ok path, s)
         end.

(** [db.exec(sql)], [db.prepare(sql).run(...)], [db.prepare(sql).get(...)]. *)
Definition exec (db : string) (q : stmt) : M Z :=
  fun s =>
    if faulty (OpSql db q) then (Throw (Fault (OpSql db q)), s)
    else match fs s !! db with
         | Some (DbFile d) =>
             match exec_stmt q d with
             | inr (n, d') => (Ok n, set_fs s (<[db := DbFile d']> (fs s)))
             | inl e => (Throw e, s)
             end
         | Some (TextDbFile d others) =>
             match exec_stmt_text q d others with
             | inr (n, (d', others')) =>
                 (Ok n, set_fs s (<[db := TextDbFile d' others']> (fs s)))
             | inl e => (Throw e, s)
             end
         | Some Other => (Throw (NotADatabase db), s)
         | _ => (Throw (CantOpen db), s)
         end.

(** [db.close()]: nothing changes in what SQLite reads at the path.  A
    connection on which statements were prepared and never finalized
    (steps 1 to 3, the counts) is not checkpointed by its close: rows
    committed through it may still be in the [-wal] side file only, and
    the main file on disk may lag behind what the node holds (see
    [on_disk]). *)
Definition close (db : string) : M unit := ret tt.

Definition existsSync (path : string) : M bool :=
  fun s => (Ok (bool_decide (is_Some (fs s !! path))), s).

Definition mkdirSync (path : string) : M unit :=
  fun s =>
    if faulty (OpMkdir path) then (Throw (Fault (OpMkdir path)), s)
    else match fs s !! path with
         | Some _ => (Throw (FsError "EEXIST" (OpMkdir path)), s)
         | None => (Ok tt, set_fs s (<[path := Dir]> (fs s)))
         end.

(** Whether the directory part of a path names a directory (a path
    without a slash lies in the working directory). *)
Definition parent_is_dir (f : gmap string node) (path : string) : bool :=
  match dirname path with
  | None => true
  | Some d => match f !! d with Some Dir => true | _ => false end
  end.

(** Why [renameSync(src, dst)] would throw on this file system, if it
    would. *)
Definition rename_check (f : gmap string node) (src dst : string) : option error :=
  let o := OpRename src dst in
  if faulty o then Some (Fault o)
  else match f !! src with
       | None => Some (FsError "ENOENT" o)
       | Some _ =>
           if negb (parent_is_dir f dst) then Some (FsError "ENOTDIR" o)
           else match f !! dst with
                | Some Dir => Some (FsError "EISDIR" o)
                | _ => None
                end
       end.

(** [renameSync(src, dst)]: a file already at [dst] is replaced.  The
    file itself moves and its side files do not: of a database in WAL
    mode, [dst] receives the main file as it is on disk, [on_disk n] for
    the node [n] that SQLite reads at [src], without whatever is still in
    the log only. *)
Definition renameSync (on_disk : node -> node) (src dst : string) : M unit :=
  fun s =>
    match rename_check (fs s) src dst, fs s !! src with
    | None, Some n => (Ok tt, set_fs s (<[dst := on_disk n]> (delete src (fs s))))
    | Some e, _ => (Throw e, s)
    | None, None => (Throw (FsError "ENOENT" (OpRename src dst)), s)
    end.

Fixpoint exec_all (db : string) (l : list stmt) : M unit :=
  match l with
  | [] => ret tt
  | q :: r => exec db q ;; exec_all db r
  end.

(** *** [cleanupEventsDB] *)

(** What the run gets from its environment, in source order. *)
Record cleanup_reads : Type := {
  initialSize : Z;          (* Bun.file('events.db').size before the work *)
  now_retention : Z;        (* Date.now() of step 1 *)
  now_truncation : Z;       (* Date.now() of step 2 *)
  now_expiry : Z;           (* Date.now() of step 3 *)
  finalSize : Z;            (* Bun.file('events.db').size after db.close() *)
  now_backup : Z;           (* new Date() of step 7 *)
  on_disk : node -> node    (* the main file of events.db as it is on disk
                               when step 7 renames it, given what SQLite
                               reads at the path: the rows as of the last
                               checkpoint of the write-ahead log *)
}.

Definition sevenDaysAgo (now : Z) : Z := now - (7 * 24 * 60 * 60 * 1000).
Definition oneDayAgo (now : Z) : Z := now - (24 * 60 * 60 * 1000).

Definition backupName (now : Z) : string :=
  "backups/events_" +:+ Js.replace_colon_dot (Js.toISOString now) +:+ ".db".

Definition mk_index (n t c : string) : Index :=
  {| index_name := n; index_table := t; index_column := c |}.

(** The statements that reinitialise the file after a rotation. *)
Definition schema_statements : list stmt :=
  [ PragmaJournalModeWal;
    PragmaSynchronousNormal;
    CreateTable TEvents;
    CreateTable TThemes;
    CreateTable TThemeShares;
    CreateTable TThemeRatings;
    CreateIndex (mk_index "idx_source_app" "events" "source_app");
    CreateIndex (mk_index "idx_session_id" "events" "session_id");
    CreateIndex (mk_index "idx_hook_event_type" "events" "hook_event_type");
    CreateIndex (mk_index "idx_timestamp" "events" "timestamp");
    CreateIndex (mk_index "idx_themes_name" "themes" "name");
    CreateIndex (mk_index "idx_themes_isPublic" "themes" "isPublic");
    CreateIndex (mk_index "idx_themes_createdAt" "themes" "createdAt");
    CreateIndex (mk_index "idx_theme_shares_token" "theme_shares" "shareToken");
    CreateIndex (mk_index "idx_theme_ratings_theme" "theme_ratings" "themeId") ].

(** Step 7, the [if (finalSize > 50 * 1024 * 1024) { ... }] statement. *)
Definition backup_rotation (r : cleanup_reads) : M unit :=
  if 50 * 1024 * 1024 <? finalSize r then
    console_log "[Cleanup] Database still large, creating backup..." ;;
    (* Ensure backups directory exists *)
    known <- existsSync "backups" ;;
    (if negb known then mkdirSync "backups" else ret tt) ;;
    renameSync (on_disk r) "events.db" (backupName (now_backup r)) ;;
    console_log ("[Cleanup] Created backup: " +:+ backupName (now_backup r)) ;;
    (* Reinitialize database with current schema *)
    newDb <- open_database "events.db" ;;
    exec_all newDb schema_statements ;;
    close newDb ;;
    console_log "[Cleanup] Created fresh database with complete schema"
  else ret tt.

(** The body of the [try] block. *)
Definition cleanup_body (r : cleanup_reads) : M unit :=
  db <- open_database "events.db" ;;
  exec db PragmaJournalModeWal ;;
  console_log ("[Cleanup] Initial DB size: "
                 +:+ Js.megabytes_toFixed2 (initialSize r) +:+ " MB") ;;
  (* 1. Remove events older than 7 days *)
  deletedOld <- exec db (DeleteOldEvents (sevenDaysAgo (now_retention r))) ;;
  console_log ("[Cleanup] Deleted " +:+ Js.dec deletedOld
                 +:+ " events older than 7 days") ;;
  (* 2. Truncate large payloads (>10KB) older than 1 day *)
  truncated <- exec db (TruncateLargePayloads (oneDayAgo (now_truncation r))) ;;
  console_log ("[Cleanup] Truncated " +:+ Js.dec truncated +:+ " large payloads") ;;
  (* 3. Clean up orphaned theme shares (expired) *)
  expiredShares <- exec db (DeleteExpiredShares (now_expiry r)) ;;
  console_log ("[Cleanup] Deleted " +:+ Js.dec expiredShares
                 +:+ " expired theme shares") ;;
  (* 4. VACUUM to reclaim space *)
  console_log "[Cleanup] Running VACUUM to reclaim space..." ;;
  exec db Vacuum ;;
  (* 5. Optimize indexes *)
  console_log "[Cleanup] Reindexing..." ;;
  exec db Reindex ;;
  (* 6. Analyze for query optimization *)
  exec db Analyze ;;
  close db ;;
  console_log ("[Cleanup] Final DB size: "
                 +:+ Js.megabytes_toFixed2 (finalSize r) +:+ " MB") ;;
  console_log ("[Cleanup] Space saved: "
                 +:+ Js.megabytes_toFixed2 (initialSize r - finalSize r) +:+ " MB") ;;
  (* 7. Backup rotation if DB still > 50MB *)
  backup_rotation r ;;
  console_log "[Cleanup] Database cleanup completed successfully".

Definition cleanupEventsDB (r : cleanup_reads) : M unit :=
  console_log "[Cleanup] Starting database cleanup..." ;;
  try_catch (cleanup_body r)
    (fun error => console_error "[Cleanup] Error during cleanup:" error).

(** *** [getDatabaseStats] *)

Record stats : Type := {
  size : Z;
  sizeFormatted : string;
  totalEvents : Z;
  eventsLast7Days : Z;
  oldEvents : Z;
  largePayloads : Z;
  lastCleanup : string
}.

Record stats_reads : Type := {
  size_read : Z;            (* Bun.file('events.db').size *)
  now_cutoff : Z;           (* Date.now() for the seven-day cutoff *)
  now_report : Z            (* new Date() in the returned object *)
}.

Definition zero_stats : stats :=
  {| size := 0; sizeFormatted := "0 MB"; totalEvents := 0; eventsLast7Days := 0;
     oldEvents := 0; largePayloads := 0; lastCleanup := "Never" |}.

(** The body of the [try] block. *)
Definition stats_body (r : stats_reads) : M stats :=
     db <- open_database "events.db" ;;
     total <- exec db CountEvents ;;
     last7 <- exec db (CountEventsAfter (sevenDaysAgo (now_cutoff r))) ;;
     old <- exec db (CountEventsBefore (sevenDaysAgo (now_cutoff r))) ;;
     large <- exec db CountLargePayloads ;;
     close db ;;
     ret {| size := size_read r;
            sizeFormatted := Js.megabytes_toFixed2 (size_read r) +:+ " MB";
            totalEvents := total;
            eventsLast7Days := last7;
            oldEvents := old;
            largePayloads := large;
            lastCleanup := Js.toISOString (now_report r) |}.

Definition getDatabaseStats (r : stats_reads) : M stats :=
  try_catch (stats_body r)
    (fun error =>
       console_error "[Stats] Error getting database stats:" error ;;
       ret zero_stats).

End Primitives.

(** ** What a run is expected to leave behind *)

(** The rows of the file once steps 1 to 6 have run on a database whose
    events and theme_shares tables hold [evs] and [shares]. *)
Definition maintained (r : cleanup_reads) (d : database)
    (evs : list Event) (shares : list ThemeShare) : database :=
  {| journal_wal := true;
     events := Some (truncate_large_payloads (oneDayAgo (now_truncation r))
                       (delete_old_events (sevenDaysAgo (now_retention r)) evs));
     themes := themes d;
     theme_shares := Some (delete_expired_shares (now_expiry r) shares);
     theme_ratings := theme_ratings d;
     indexes := indexes d |}.

(** The file that the reinitialisation of step 7 builds: the four tables,
    all empty, and the nine indexes. *)
Definition fresh_database : database :=
  {| journal_wal := true;
     events := Some []; themes := Some []; theme_shares := Some [];
     theme_ratings := Some [];
     indexes :=
       [ mk_index "idx_source_app" "events" "source_app";
         mk_index "idx_session_id" "events" "session_id";
         mk_index "idx_hook_event_type" "events" "hook_event_type";
         mk_index "idx_timestamp" "events" "timestamp";
         mk_index "idx_themes_name" "themes" "name";
         mk_index "idx_themes_isPublic" "themes" "isPublic";
         mk_index "idx_themes_createdAt" "themes" "createdAt";
         mk_index "idx_theme_shares_token" "theme_shares" "shareToken";
         mk_index "idx_theme_ratings_theme" "theme_ratings" "themeId" ] |}.

(** The file system after [if (!existsSync('backups')) mkdirSync('backups')]. *)
Definition ensure_backups (f : gmap string node) : gmap string node :=
  match f !! "backups" with
  | None => <["backups" := Dir]> f
  | Some _ => f
  end.

(** A backup file that the step from [f] to [f'] created: a path directly
    inside [backups] that held nothing before and holds something now. *)
Definition backup_created (f f' : gmap string node) (p : string) : Prop :=
  dirname p = Some "backups" /\ f !! p = None /\ is_Some (f' !! p).

(** The side files of the live database, about which the map is silent. *)
Definition side_file (p : string) : Prop :=
  p = "events.db-wal" \/ p = "events.db-shm".

(** Rotation decided by the size measured after compaction alone: at or
    below the threshold no backup file is created and the live path holds
    [d']; above it exactly one backup file is created, inside the backup
    directory, and the live path holds the fresh file. *)
Definition rotation_by_size_alone (faulty : op -> bool) (r : cleanup_reads)
    (s : state) (d' : database) : Prop :=
  let f := fs s in
  let f' := fs (snd (cleanupEventsDB faulty r s)) in
  (finalSize r <= 50 * 1024 * 1024 ->
     (forall p, ~ backup_created f f' p)
     /\ f' !! "events.db" = Some (DbFile d'))
  /\ (50 * 1024 * 1024 < finalSize r ->
      (exists p, backup_created f f' p /\ forall q, backup_created f f' q -> q = p)
      /\ f' !! "backups" = Some Dir
      /\ f' !! "events.db" = Some (DbFile fresh_database)).

(** What the console shows of steps 1 to 6 of a run. *)
Definition maintenance_log (r : cleanup_reads) (evs : list Event)
    (shares : list ThemeShare) : list log_entry :=
  let kept := delete_old_events (sevenDaysAgo (now_retention r)) evs in
  [ ConsoleLog "[Cleanup] Starting database cleanup...";
    ConsoleLog ("[Cleanup] Initial DB size: "
                  +:+ Js.megabytes_toFixed2 (initialSize r) +:+ " MB");
    ConsoleLog ("[Cleanup] Deleted "
                  +:+ Js.dec (count (is_old (sevenDaysAgo (now_retention r))) evs)
                  +:+ " events older than 7 days");
    ConsoleLog ("[Cleanup] Truncated "
                  +:+ Js.dec (count (truncation_applies (oneDayAgo (now_truncation r))) kept)
                  +:+ " large payloads");
    ConsoleLog ("[Cleanup] Deleted "
                  +:+ Js.dec (count (share_expired (now_expiry r)) shares)
                  +:+ " expired theme shares");
    ConsoleLog "[Cleanup] Running VACUUM to reclaim space...";
    ConsoleLog "[Cleanup] Reindexing...";
    ConsoleLog ("[Cleanup] Final DB size: "
                  +:+ Js.megabytes_toFixed2 (finalSize r) +:+ " MB");
    ConsoleLog ("[Cleanup] Space saved: "
                  +:+ Js.megabytes_toFixed2 (initialSize r - finalSize r) +:+ " MB") ].


(** The member of an object, for reading markers back. *)
Definition field (key : string) (p : json) : option json :=
  match p with
  | JObj members => member key members
  | _ => None
  end.




(** The rows of the events table of a database node: those with a JSON
    payload and those without. *)
Definition table_rows (n : option node) : option (list Event * list TextEvent) :=
  match n with
  | Some (DbFile d) =>
      match events d with Some evs => Some (evs, []) | None => None end
  | Some (TextDbFile d others) =>
      match events d with Some evs => Some (evs, others) | None => None end
  | _ => None
  end.

(** ** Sample data *)

Fixpoint repeat_char (n : nat) (c : ascii) : string :=
  match n with
  | O => EmptyString
  | S k => String c (repeat_char k c)
  end.

Definition day_ms : Z := 24 * 60 * 60 * 1000.
Definition sample_now : Z := 1700000000000.

Definition sample_event (i : Z) (p : json) (t : Z) : Event :=
  {| id := i; source_app := "demo-app"; session_id := "session-1";
     hook_event_type := "PreToolUse"; payload := p;
     chat := None; summary := None; timestamp := t |}.

(** A payload of 10,003 characters that is a JSON string, not an object. *)
Definition long_text : json := JStr (repeat_char (Z.to_nat 10001) "a").

(** A payload of 10,017 characters whose [source_app] member alone is
    10,000 characters long. *)
Definition long_source_app : json :=
  JObj [("source_app", JStr (repeat_char (Z.to_nat 10000) "a"))].

Definition small_payload : json :=
  JObj [("source_app", JStr "demo-app"); ("session_id", JStr "session-1");
        ("hook_event_name", JStr "PreToolUse")].

Definition sample_events : list Event :=
  [ sample_event 1 small_payload (sample_now - 8 * day_ms);
    sample_event 2 long_text (sample_now - 2 * day_ms);
    sample_event 3 small_payload (sample_now - 7 * day_ms);
    sample_event 4 long_text (sample_now - 1000);
    sample_event 5 small_payload sample_now ].

(** One old row whose payload is an object with one very long member. *)
Definition long_member_events : list Event :=
  [ sample_event 1 long_source_app (sample_now - 2 * day_ms) ].

(** The [original_size] recorded in the payload of the first row. *)
Definition first_original_size (evs : list Event) : option json :=
  match evs with
  | e :: _ => field "original_size" (payload e)
  | [] => None
  end.

Definition sample_share (i : string) (e : option Z) (n : Z) : ThemeShare :=
  {| share_id := i; share_themeId := "theme-1"; shareToken := "tok-" +:+ i;
     expiresAt := e; share_isPublic := 1; allowedUsers := None;
     share_createdAt := 0; accessCount := Some n |}.

Definition sample_shares : list ThemeShare :=
  [ sample_share "a" None 3;
    sample_share "b" (Some (sample_now - 1)) 5;
    sample_share "c" (Some sample_now) 7;
    sample_share "d" (Some (sample_now + day_ms)) 9 ].

Definition sample_db : database :=
  {| journal_wal := false; events := Some sample_events; themes := Some [];
     theme_shares := Some sample_shares; theme_ratings := Some [];
     indexes := [] |}.

Definition sample_state : state :=
  {| fs := {["events.db" := DbFile sample_db]}; console := [] |}.

Definition no_faults : op -> bool := fun _ => false.

(** The environment refuses every rename (say, an unwritable directory). *)
Definition rename_refused : op -> bool :=
  fun o => match o with OpRename _ _ => true | _ => false end.

(** A run on a file that stays at 50 MB; its log is fully checkpointed. *)
Definition small_reads : cleanup_reads :=
  {| initialSize := 4 * 1024 * 1024; now_retention := sample_now;
     now_truncation := sample_now; now_expiry := sample_now;
     finalSize := 50 * 1024 * 1024; now_backup := sample_now;
     on_disk := fun n => n |}.

(** A run on a file one byte above 50 MB, with nothing checkpointed since
    the run began: the main file still holds the rows [sample_db] had. *)
Definition large_reads : cleanup_reads :=
  {| initialSize := 60 * 1024 * 1024; now_retention := sample_now;
     now_truncation := sample_now; now_expiry := sample_now;
     finalSize := 50 * 1024 * 1024 + 1; now_backup := sample_now;
     on_disk := fun _ => DbFile sample_db |}.

(** A file system where a backup of the very same millisecond exists. *)
Definition collision_state : state :=
  {| fs := <[backupName sample_now := DbFile empty_database]>
             {[ "events.db" := DbFile sample_db; "backups" := Dir ]};
     console := [] |}.






(** A row two days old whose payload, 10,001 letters x, is not JSON. *)
Definition text_row : TextEvent :=
  {| text_id := 9; text_source_app := "demo-app"; text_session_id := "session-1";
     text_hook_event_type := "PreToolUse";
     text_payload := repeat_char (Z.to_nat 10001) "x";
     text_chat := None; text_summary := None;
     text_timestamp := sample_now - 2 * day_ms |}.

(** The sample database with that row added to its events table. *)
Definition text_state : state :=
  {| fs := {["events.db" := TextDbFile sample_db [text_row]]}; console := [] |}.

Definition sample_stats_reads : stats_reads :=
  {| size_read := 4 * 1024 * 1024; now_cutoff := sample_now;
     now_report := sample_now + 5 |}.

Definition empty_state : state := {| fs := ∅; console := [] |}.

(** ** Auxiliary notions for the proofs *)

(** A list of statements run in order on one database, without the
    environment: the database after the last one, or the first error. *)
Fixpoint exec_stmts (l : list stmt) (d : database) : error + database :=
  match l with
  | [] => inr d
  | q :: r =>
      match exec_stmt q d with
      | inr (_, d') => exec_stmts r d'
      | inl e => inl e
      end
  end.

(** The SELECT statements of [getDatabaseStats]. *)
Definition is_select (q : stmt) : bool :=
  match q with
  | CountEvents | CountEventsAfter _ | CountEventsBefore _ | CountLargePayloads => true
  | _ => false
  end.

Fixpoint has_slash (s : string) : bool :=
  match s with
  | EmptyString => false
  | String c r => Ascii.eqb c "/" || has_slash r
  end.




(** ** Further notions: console output, touched paths, characters *)

(** An entry written by [console.log]. *)
Definition is_info (e : log_entry) : Prop :=
  match e with
  | ConsoleLog _ => True
  | ConsoleError _ _ => False
  end.

(** A computation that only appends [console.log] lines to the console. *)
Definition logs_info {A : Type} (m : M A) : Prop :=
  forall s, exists l,
    console (snd (m s)) = (console s ++ l)%list /\ Forall is_info l.

(** A computation whose console output, when it returns, ends with the
    entry [x], all entries before it being [console.log] lines. *)
Definition ends_with {A : Type} (x : log_entry) (m : M A) : Prop :=
  forall s a s', m s = (Ok a, s') ->
    exists l, console s' = (console s ++ l ++ [x])%list /\ Forall is_info l.

(** A computation that leaves every path outside [paths] as it was. *)
Definition touches_only {A : Type} (paths : list string) (m : M A) : Prop :=
  forall s p, ~ In p paths -> fs (snd (m s)) !! p = fs s !! p.

(** Whether a character occurs in a string. *)
Fixpoint occurs (c : ascii) (s : string) : bool :=
  match s with
  | EmptyString => false
  | String a r => Ascii.eqb a c || occurs c r
  end.

(** What a SELECT of [getDatabaseStats] returns on an events table holding
    the rows [evs] and the rows [others] without a JSON payload. *)
Definition select_count (q : stmt) (evs : list Event) (others : list TextEvent) : Z :=
  match q with
  | CountEvents => count (fun _ => true) evs + count (fun _ => true) others
  | CountEventsAfter c =>
      count (fun e => c <? timestamp e) evs + count (fun x => c <? text_timestamp x) others
  | CountEventsBefore c =>
      count (fun e => timestamp e <? c) evs + count (fun x => text_timestamp x <? c) others
  | CountLargePayloads =>
      count (fun e => 10000 <? LENGTH (payload e)) evs
      + count (fun x => 10000 <? characters (text_payload x)) others
  | _ => 0
  end.

(** The snapshot that [getDatabaseStats] builds from an events table
    holding the rows [evs] and the rows [others] without a JSON payload. *)
Definition computed_stats_rows (r : stats_reads) (evs : list Event)
    (others : list TextEvent) : stats :=
  {| size := size_read r;
     sizeFormatted := Js.megabytes_toFixed2 (size_read r) +:+ " MB";
     totalEvents := count (fun _ => true) evs + count (fun _ => true) others;
     eventsLast7Days :=
       count (fun e => sevenDaysAgo (now_cutoff r) <? timestamp e) evs
       + count (fun x => sevenDaysAgo (now_cutoff r) <? text_timestamp x) others;
     oldEvents :=
       count (fun e => timestamp e <? sevenDaysAgo (now_cutoff r)) evs
       + count (fun x => text_timestamp x <? sevenDaysAgo (now_cutoff r)) others;
     largePayloads :=
       count (fun e => 10000 <? LENGTH (payload e)) evs
       + count (fun x => 10000 <? characters (text_payload x)) others;
     lastCleanup := Js.toISOString (now_report r) |}.

(** The snapshot that [getDatabaseStats] builds from the rows [evs]. *)
Definition computed_stats (r : stats_reads) (evs : list Event) : stats :=
  {| size := size_read r;
     sizeFormatted := Js.megabytes_toFixed2 (size_read r) +:+ " MB";
     totalEvents := count (fun _ => true) evs;
     eventsLast7Days := count (fun e => sevenDaysAgo (now_cutoff r) <? timestamp e) evs;
     oldEvents := count (fun e => timestamp e <? sevenDaysAgo (now_cutoff r)) evs;
     largePayloads := count (fun e => 10000 <? LENGTH (payload e)) evs;
     lastCleanup := Js.toISOString (now_report r) |}.

(** A database file whose theme_shares table was never created. *)
Definition sample_db_without_shares : database :=
  {| journal_wal := false; events := Some sample_events; themes := Some [];
     theme_shares := None; theme_ratings := Some []; indexes := [] |}.




(** A computation that writes nothing to the console. *)
Definition keeps_console {A : Type} (m : M A) : Prop :=
  forall s, console (snd (m s)) = console s.

(** The index list after [CREATE INDEX IF NOT EXISTS]: unchanged when an
    index of that name exists. *)
Definition add_index (i : Index) (l : list Index) : list Index :=
  if existsb (fun j => String.eqb (index_name j) (index_name i)) l
  then l else (l ++ [i])%list.

(** A table's rows once [CREATE TABLE IF NOT EXISTS] has run. *)
Definition rows_or_empty {A : Type} (o : option (list A)) : list A :=
  match o with
  | Some rows => rows
  | None => []
  end.

(** The environment refuses to create directories. *)
Definition mkdir_refused : op -> bool :=
  fun o => match o with OpMkdir _ => true | _ => false end.

(** The statements of steps 1 to 6 of a run. *)
Definition maintenance_statements (r : cleanup_reads) : list stmt :=
  [ PragmaJournalModeWal;
    DeleteOldEvents (sevenDaysAgo (now_retention r));
    TruncateLargePayloads (oneDayAgo (now_truncation r));
    DeleteExpiredShares (now_expiry r);
    Vacuum; Reindex; Analyze ].

(** A database none of whose tables holds a row. *)
Definition no_rows (d : database) : Prop :=
  rows_or_empty (events d) = [] /\ rows_or_empty (themes d) = []
  /\ rows_or_empty (theme_shares d) = [] /\ rows_or_empty (theme_ratings d) = [].

(** The environment fails the creation of the theme_ratings table. *)
Definition ratings_table_refused : op -> bool :=
  fun o => match o with
           | OpSql _ (CreateTable TThemeRatings) => true
           | _ => false
           end.

(** The statements of the reinitialisation: pragmas and CREATE ... IF NOT
    EXISTS. *)
Definition is_ddl (q : stmt) : bool :=
  match q with
  | PragmaJournalModeWal | PragmaSynchronousNormal | CreateTable _ | CreateIndex _ => true
  | _ => false
  end.

(** ** Lists of rows *)

Lemma count_nonneg {A : Type} (f : A -> bool) (l : list A) : 0 <= count f l.
Proof. unfold count. lia. Qed.

(** Rows removed and rows kept by a DELETE add up to the rows before. *)
Lemma count_filter_negb {A : Type} (f : A -> bool) (l : list A) :
  count f l + Z.of_nat (List.length (List.filter (fun x => negb (f x)) l))
  = Z.of_nat (List.length l).
Proof.
  unfold count. induction l as [|x l IH]; simpl; [reflexivity|].
  destruct (f x); simpl; lia.
Qed.

Lemma filter_ext_bool {A : Type} (f g : A -> bool) (l : list A) :
  (forall x, f x = g x) -> List.filter f l = List.filter g l.
Proof.
  intros E. induction l as [|x l IH]; simpl; [reflexivity|].
  rewrite E, IH. reflexivity.
Qed.

(** ** Step 1: age retention *)

Lemma is_old_spec (cutoff : Z) (e : Event) :
  is_old cutoff e = true <-> timestamp e < cutoff.
Proof. unfold is_old. apply Z.ltb_lt. Qed.

Lemma delete_old_events_In (cutoff : Z) (evs : list Event) (e : Event) :
  In e (delete_old_events cutoff evs) <-> In e evs /\ cutoff <= timestamp e.
Proof.
  unfold delete_old_events. rewrite List.filter_In. unfold is_old.
  rewrite negb_true_iff, Z.ltb_ge. reflexivity.
Qed.

(** ** Step 3: share expiry *)

Lemma delete_expired_shares_In (now : Z) (shares : list ThemeShare) (s : ThemeShare) :
  In s (delete_expired_shares now shares)
  <-> In s shares /\ (expiresAt s = None \/ exists t, expiresAt s = Some t /\ now <= t).
Proof.
  unfold delete_expired_shares. rewrite List.filter_In. unfold share_expired.
  destruct (expiresAt s) as [t|].
  - rewrite negb_true_iff, Z.ltb_ge. split.
    + intros [H1 H2]. split; [exact H1|]. right. exists t. split; [reflexivity|exact H2].
    + intros [H1 [H2|[t' [H2 H3]]]]; [discriminate|].
      injection H2 as ->. split; assumption.
  - split.
    + intros [H1 _]. split; [exact H1|]. left. reflexivity.
    + intros [H1 _]. split; [exact H1|reflexivity].
Qed.

(** ** Step 2: payload truncation *)

(** Reading a member back out of what [json_object] stored gives the SQL
    value that was stored, when that value came from [json_extract]. *)
Lemma sql_of_json_of_extract (p : json) (key : string) :
  sql_of_json (json_of_sql (json_extract p key)) = json_extract p key.
Proof.
  destruct p as [| | | n | s | items | members]; try reflexivity.
  simpl. destruct (member key members) as [v|]; [|reflexivity].
  destruct v; reflexivity.
Qed.

Lemma truncation_applies_spec (cutoff : Z) (e : Event) :
  truncation_applies cutoff e = true
  <-> 10000 < LENGTH (payload e) /\ timestamp e < cutoff.
Proof.
  unfold truncation_applies. rewrite andb_true_iff, !Z.ltb_lt. reflexivity.
Qed.

Lemma truncate_event_skips (cutoff : Z) (e : Event) :
  truncation_applies cutoff e = false -> truncate_event cutoff e = e.
Proof. intros H. unfold truncate_event. rewrite H. reflexivity. Qed.

Lemma truncate_event_marks (cutoff : Z) (e : Event) :
  truncation_applies cutoff e = true ->
  truncate_event cutoff e = set_payload e (truncation_marker (payload e)).
Proof. intros H. unfold truncate_event. rewrite H. reflexivity. Qed.

(** *** Repeating the truncation *)

(** C4, as stated, fails: a payload whose [source_app] member is 10,000
    characters long yields a marker of more than 10,000 characters, which
    the statement matches again; the second pass records the length of the
    first marker as [original_size], so two passes differ from one. *)
Lemma truncation_twice_differs :
  10000 < LENGTH (truncation_marker long_source_app)
  /\ truncate_large_payloads (oneDayAgo sample_now)
       (truncate_large_payloads (oneDayAgo sample_now) long_member_events)
     <> truncate_large_payloads (oneDayAgo sample_now) long_member_events.
Proof.
  split; [vm_compute; reflexivity|].
  assert (H1 : first_original_size
                 (truncate_large_payloads (oneDayAgo sample_now) long_member_events)
               = Some (JInt 10017)) by (vm_compute; reflexivity).
  assert (H2 : first_original_size
                 (truncate_large_payloads (oneDayAgo sample_now)
                    (truncate_large_payloads (oneDayAgo sample_now) long_member_events))
               = Some (JInt 10094)) by (vm_compute; reflexivity).
  intros H. rewrite H, H1 in H2. discriminate H2.
Qed.

(** C4, amended. Two passes of the truncation statement with the same
    [now] give the same rows as one pass whenever every marker the first
    pass writes is at most 10,000 long. *)
Theorem truncation_idempotent_when_markers_small (evs : list Event) (now : Z) :
  (forall e, In e evs -> truncation_applies (oneDayAgo now) e = true ->
             LENGTH (truncation_marker (payload e)) <= 10000) ->
  truncate_large_payloads (oneDayAgo now) (truncate_large_payloads (oneDayAgo now) evs)
  = truncate_large_payloads (oneDayAgo now) evs.
Proof.
  intros Hsmall. unfold truncate_large_payloads. rewrite List.map_map.
  apply List.map_ext_in. intros e Hin.
  destruct (truncation_applies (oneDayAgo now) e) eqn:Ha.
  - rewrite (truncate_event_marks _ _ Ha). apply truncate_event_skips.
    unfold truncation_applies. simpl payload.
    specialize (Hsmall e Hin Ha).
    apply andb_false_iff. left. apply Z.ltb_ge. exact Hsmall.
  - rewrite (truncate_event_skips _ _ Ha). apply truncate_event_skips. exact Ha.
Qed.

Lemma truncation_idempotent_when_markers_small_witness :
  truncate_large_payloads (oneDayAgo sample_now)
    (truncate_large_payloads (oneDayAgo sample_now) sample_events)
  = truncate_large_payloads (oneDayAgo sample_now) sample_events.
Proof.
  apply (truncation_idempotent_when_markers_small sample_events sample_now).
  intros e Hin Ha. simpl in Hin.
  repeat (destruct Hin as [<-|Hin]);
    try contradiction;
    first [ vm_compute in Ha; discriminate Ha | vm_compute; discriminate ].
Defined.

(** ** The backup file name *)

Lemma has_slash_app (a b : string) :
  has_slash (a +:+ b) = has_slash a || has_slash b.
Proof.
  induction a as [|c a IH]; simpl; [reflexivity|].
  rewrite IH. apply orb_assoc.
Qed.

Lemma digit_not_slash (n : Z) : Ascii.eqb (Js.digit (n mod 10)) "/" = false.
Proof.
  assert (H : 0 <= n mod 10 < 10) by (apply Z.mod_pos_bound; lia).
  assert (E : n mod 10 = 0 \/ n mod 10 = 1 \/ n mod 10 = 2 \/ n mod 10 = 3
              \/ n mod 10 = 4 \/ n mod 10 = 5 \/ n mod 10 = 6 \/ n mod 10 = 7
              \/ n mod 10 = 8 \/ n mod 10 = 9) by lia.
  repeat (destruct E as [E|E]; [rewrite E; reflexivity|]).
  rewrite E. reflexivity.
Qed.

Lemma digits_go_no_slash (fuel : nat) (n : Z) (acc : string) :
  has_slash acc = false -> has_slash (Js.digits_go fuel n acc) = false.
Proof.
  revert n acc. induction fuel as [|fuel IH]; intros n acc Hacc; simpl; [exact Hacc|].
  assert (H : has_slash (String (Js.digit (n mod 10)) acc) = false).
  { simpl. rewrite digit_not_slash, Hacc. reflexivity. }
  destruct (n <? 10); [exact H | apply IH; exact H].
Qed.

Lemma zeros_no_slash (k : nat) : has_slash (Js.zeros k) = false.
Proof. induction k as [|k IH]; simpl; [reflexivity | exact IH]. Qed.

Lemma pad_no_slash (w : nat) (n : Z) : has_slash (Js.pad w n) = false.
Proof.
  unfold Js.pad, Js.digits. rewrite has_slash_app, zeros_no_slash.
  rewrite digits_go_no_slash; reflexivity.
Qed.

Lemma year_string_no_slash (y : Z) : has_slash (Js.year_string y) = false.
Proof.
  unfold Js.year_string. destruct (_ && _); [apply pad_no_slash|].
  rewrite has_slash_app, pad_no_slash. destruct (y <? 0); reflexivity.
Qed.

Lemma toISOString_no_slash (t : Z) : has_slash (Js.toISOString t) = false.
Proof.
  unfold Js.toISOString. destruct (Js.civil_from_days _) as [[y m] d].
  repeat (rewrite has_slash_app; rewrite ?year_string_no_slash, ?pad_no_slash;
          cbn [has_slash Ascii.eqb Bool.eqb orb]).
  reflexivity.
Qed.

Lemma replace_colon_dot_no_slash (s : string) :
  has_slash (Js.replace_colon_dot s) = has_slash s.
Proof.
  induction s as [|c s IH]; simpl; [reflexivity|]. rewrite IH. f_equal.
  destruct (Ascii.eqb c ":") eqn:E1.
  - apply Ascii.eqb_eq in E1. subst c. reflexivity.
  - destruct (Ascii.eqb c ".") eqn:E2; [|reflexivity].
    apply Ascii.eqb_eq in E2. subst c. reflexivity.
Qed.

Lemma dirname_no_slash (s : string) : has_slash s = false -> dirname s = None.
Proof.
  induction s as [|c s IH]; simpl; [reflexivity|].
  intros H. apply orb_false_iff in H. destruct H as [Hc Hs].
  rewrite (IH Hs), Hc. reflexivity.
Qed.

Lemma dirname_append (dir rest : string) :
  has_slash rest = false -> dirname (dir +:+ String "/" rest) = Some dir.
Proof.
  intros H. induction dir as [|c dir IH].
  - change (dirname (String "/" rest) = Some EmptyString).
    cbn [dirname]. rewrite (dirname_no_slash rest H). reflexivity.
  - change (dirname (String c (dir +:+ String "/" rest)) = Some (String c dir)).
    cbn [dirname]. rewrite IH. reflexivity.
Qed.

Lemma backup_path_shape (x : string) :
  "backups/events_" +:+ x +:+ ".db"
  = "backups" +:+ String "/" ("events_" +:+ x +:+ ".db").
Proof. reflexivity. Qed.

(** The backup lies directly inside [backups]. *)
Lemma dirname_backupName (t : Z) : dirname (backupName t) = Some "backups".
Proof.
  unfold backupName. rewrite backup_path_shape.
  apply dirname_append.
  rewrite !has_slash_app, replace_colon_dot_no_slash, toISOString_no_slash.
  reflexivity.
Qed.

Lemma backupName_not_live (t : Z) : backupName t <> "events.db".
Proof. unfold backupName. cbv beta iota delta [String.append]. discriminate. Qed.

Lemma backupName_not_dir (t : Z) : backupName t <> "backups".
Proof. unfold backupName. cbv beta iota delta [String.append]. discriminate. Qed.

(** ** Running statements against the file system *)

Lemma set_fs_same (s : state) : set_fs s (fs s) = s.
Proof. destruct s; reflexivity. Qed.

Section Runs.

Variable faulty : op -> bool.

Lemma exec_all_ok (p : string) (l : list stmt) (s : state) (d d' : database) :
  (forall q, faulty (OpSql p q) = false) ->
  fs s !! p = Some (DbFile d) ->
  exec_stmts l d = inr d' ->
  exec_all faulty p l s = (Ok tt, set_fs s (<[p := DbFile d']> (fs s))).
Proof.
  intros Hf. revert s d. induction l as [|q l IH]; intros s d Hl He; simpl in *.
  - injection He as <-. unfold ret. rewrite (insert_id _ _ _ Hl), set_fs_same.
    reflexivity.
  - destruct (exec_stmt q d) as [e|[n d1]] eqn:Hq; [discriminate|].
    unfold bind, exec. rewrite Hf, Hl, Hq.
    rewrite (IH _ d1); [| simpl; apply lookup_insert_eq | exact He].
    simpl. unfold set_fs. simpl. rewrite insert_insert_eq. reflexivity.
Qed.

Lemma schema_builds_fresh :
  exec_stmts schema_statements empty_database = inr fresh_database.
Proof. reflexivity. Qed.

(** Steps 1 to 6 on a file that has its events and theme_shares tables. *)
Lemma cleanup_reaches_rotation (r : cleanup_reads) (s : state) (d : database)
    (evs : list Event) (shares : list ThemeShare) :
  fs s !! "events.db" = Some (DbFile d) ->
  events d = Some evs -> theme_shares d = Some shares ->
  faulty (OpOpen "events.db") = false ->
  (forall q, faulty (OpSql "events.db" q) = false) ->
  cleanupEventsDB faulty r s
  = try_catch
      (backup_rotation faulty r ;;
       console_log "[Cleanup] Database cleanup completed successfully")%run
      (fun error => console_error "[Cleanup] Error during cleanup:" error)
      {| fs := <["events.db" := DbFile (maintained r d evs shares)]> (fs s);
         console := console s ++ maintenance_log r evs shares |}.
Proof.
  intros Hl Hev Hsh Hop Hsql.
  unfold cleanupEventsDB, try_catch, cleanup_body, bind, open_database, exec,
    close, ret, console_log, set_fs.
  cbn [fs console]. rewrite Hop, Hl.
  repeat (rewrite ?Hsql, ?Hl, ?lookup_insert_eq;
          cbn [fs console exec_stmt set_wal events theme_shares set_events set_shares];
          rewrite ?Hev, ?Hsh).
  rewrite !insert_insert_eq.
  unfold maintenance_log. rewrite <- !app_assoc. reflexivity.
Qed.

Lemma rotation_skipped (r : cleanup_reads) (s : state) :
  finalSize r <= 50 * 1024 * 1024 -> backup_rotation faulty r s = (Ok tt, s).
Proof.
  intros H. unfold backup_rotation.
  destruct (50 * 1024 * 1024 <? finalSize r) eqn:E; [|reflexivity].
  apply Z.ltb_lt in E. lia.
Qed.

(** [if (!existsSync('backups')) mkdirSync('backups')]. *)
Lemma backups_ensured (f : gmap string node) (c : list log_entry) :
  (f !! "backups" = None -> faulty (OpMkdir "backups") = false) ->
  (if negb (bool_decide (is_Some (f !! "backups")))
   then mkdirSync faulty "backups" else ret tt) {| fs := f; console := c |}
  = (Ok tt, {| fs := ensure_backups f; console := c |}).
Proof.
  intros Hmk. unfold ensure_backups, mkdirSync, ret, set_fs. cbn [fs console].
  destruct (f !! "backups") as [n|] eqn:Hb.
  - rewrite bool_decide_eq_true_2 by eauto. reflexivity.
  - rewrite bool_decide_eq_false_2 by (intros [x Hx]; discriminate).
    cbn [negb fs console]. rewrite (Hmk eq_refl), Hb. reflexivity.
Qed.

(** The rotation when the rename throws. *)
Lemma rotation_rename_fails (r : cleanup_reads) (s : state) (e : error) :
  50 * 1024 * 1024 < finalSize r ->
  (fs s !! "backups" = None -> faulty (OpMkdir "backups") = false) ->
  rename_check faulty (ensure_backups (fs s)) "events.db" (backupName (now_backup r))
    = Some e ->
  backup_rotation faulty r s
  = (Throw e,
     {| fs := ensure_backups (fs s);
        console := console s
                     ++ [ConsoleLog "[Cleanup] Database still large, creating backup..."] |}).
Proof.
  intros Hsize Hmk Hren. unfold backup_rotation.
  apply Z.ltb_lt in Hsize. rewrite Hsize.
  unfold bind at 1. cbn [console_log].
  unfold bind at 1. unfold existsSync at 1. cbn [fs console].
  unfold bind at 1. rewrite (backups_ensured _ _ Hmk).
  unfold bind at 1. unfold renameSync at 1, set_fs. cbn [fs console].
  rewrite Hren. reflexivity.
Qed.

Lemma rotation_succeeds (r : cleanup_reads) (s : state) (d' : database) :
  50 * 1024 * 1024 < finalSize r ->
  fs s !! "events.db" = Some (DbFile d') ->
  (fs s !! "backups" = None -> faulty (OpMkdir "backups") = false) ->
  rename_check faulty (ensure_backups (fs s)) "events.db" (backupName (now_backup r))
    = None ->
  faulty (OpOpen "events.db") = false ->
  (forall q, faulty (OpSql "events.db" q) = false) ->
  backup_rotation faulty r s
  = (Ok tt,
     {| fs := <["events.db" := DbFile fresh_database]>
                (<[backupName (now_backup r) := on_disk r (DbFile d')]>
                   (delete "events.db" (ensure_backups (fs s))));
        console := console s
                     ++ [ ConsoleLog "[Cleanup] Database still large, creating backup...";
                          ConsoleLog ("[Cleanup] Created backup: "
                                        +:+ backupName (now_backup r));
                          ConsoleLog "[Cleanup] Created fresh database with complete schema" ] |}).
Proof.
  intros Hsize Hl Hmk Hren Hop Hsql. unfold backup_rotation.
  apply Z.ltb_lt in Hsize. rewrite Hsize.
  assert (Hl2 : ensure_backups (fs s) !! "events.db" = Some (DbFile d')).
  { unfold ensure_backups. destruct (fs s !! "backups"); [exact Hl|].
    rewrite lookup_insert_ne by discriminate. exact Hl. }
  assert (Hgone : <[backupName (now_backup r) := on_disk r (DbFile d')]>
                    (delete "events.db" (ensure_backups (fs s))) !! "events.db" = None).
  { rewrite lookup_insert_ne by apply backupName_not_live. apply lookup_delete_eq. }
  unfold bind at 1. cbn [console_log].
  unfold bind at 1. unfold existsSync at 1. cbn [fs console].
  unfold bind at 1. rewrite (backups_ensured _ _ Hmk).
  unfold bind at 1. unfold renameSync at 1. cbn [fs console]. rewrite Hren, Hl2.
  unfold set_fs at 1. cbn [fs console].
  unfold bind at 1. cbn [console_log fs console].
  unfold bind at 1. unfold open_database at 1. cbn [fs console].
  rewrite Hop, Hgone. unfold set_fs at 1. cbn [fs console].
  unfold bind at 1.
  erewrite (exec_all_ok "events.db" schema_statements _ empty_database fresh_database);
    [| exact Hsql | cbn [fs]; apply lookup_insert_eq | exact schema_builds_fresh ].
  unfold bind, close, ret, console_log, set_fs. cbn [fs console].
  rewrite insert_insert_eq, <- !app_assoc. reflexivity.
Qed.

End Runs.

(** ** Step 7: rotation *)

Section Rotation.

Variable faulty : op -> bool.

Lemma cleanup_never_throws (r : cleanup_reads) (s : state) :
  fst (cleanupEventsDB faulty r s) = Ok tt.
Proof.
  unfold cleanupEventsDB, bind, try_catch, console_log, console_error.
  destruct (cleanup_body faulty r _) as [[[]|e] s']; reflexivity.
Qed.

Lemma ensure_backups_other (f : gmap string node) (p : string) :
  p <> "backups" -> ensure_backups f !! p = f !! p.
Proof.
  intros Hp. unfold ensure_backups. destruct (f !! "backups"); [reflexivity|].
  apply lookup_insert_ne. congruence.
Qed.

Lemma ensure_backups_dir (f : gmap string node) :
  f !! "backups" = Some Dir \/ f !! "backups" = None ->
  ensure_backups f !! "backups" = Some Dir.
Proof.
  unfold ensure_backups. intros [H|H]; rewrite H; [exact H | apply lookup_insert_eq].
Qed.

Lemma dirname_live : dirname "events.db" = None.
Proof. reflexivity. Qed.

Lemma dirname_backups : dirname "backups" = None.
Proof. reflexivity. Qed.

(** C1, amended. In a run that gets through steps 1 to 6, the size
    measured after compaction decides the rotation.  At or below
    50 * 1024 * 1024 no backup file is created and the live path holds
    what steps 1 to 6 produced.  Above it, and provided no operation of
    the rotation fails (the directory can be made where it is missing,
    [backups] is not a plain file, the rename is not refused and the
    backup path is not a directory), the main file is renamed to
    [backups/events_<time>.db] inside the backup directory - the backup
    holds that file as it was on disk - the live path holds the fresh
    four-table file with no rows, and the only backup file that can have
    been created is that one: it is created when no file had its name,
    and replaces the file that had.  No path beyond these, and the side
    files of the live database, changes. *)
Theorem rotation_by_size_when_nothing_fails
    (r : cleanup_reads) (s : state) (d : database)
    (evs : list Event) (shares : list ThemeShare) :
  fs s !! "events.db" = Some (DbFile d) ->
  events d = Some evs -> theme_shares d = Some shares ->
  faulty (OpOpen "events.db") = false ->
  (forall q, faulty (OpSql "events.db" q) = false) ->
  (50 * 1024 * 1024 < finalSize r ->
     (fs s !! "backups" = Some Dir
      \/ (fs s !! "backups" = None /\ faulty (OpMkdir "backups") = false))
     /\ faulty (OpRename "events.db" (backupName (now_backup r))) = false
     /\ fs s !! backupName (now_backup r) <> Some Dir) ->
  let f := fs s in
  let f' := fs (snd (cleanupEventsDB faulty r s)) in
  let bn := backupName (now_backup r) in
  (finalSize r <= 50 * 1024 * 1024 ->
     (forall p, ~ backup_created f f' p)
     /\ f' !! "events.db" = Some (DbFile (maintained r d evs shares))
     /\ (forall p, p <> "events.db" -> ~ side_file p -> f' !! p = f !! p))
  /\ (50 * 1024 * 1024 < finalSize r ->
      f' !! "backups" = Some Dir
      /\ dirname bn = Some "backups"
      /\ f' !! bn = Some (on_disk r (DbFile (maintained r d evs shares)))
      /\ f' !! "events.db" = Some (DbFile fresh_database)
      /\ (forall q, backup_created f f' q -> q = bn)
      /\ (f !! bn = None -> backup_created f f' bn)
      /\ (forall p, p <> "events.db" -> ~ side_file p -> p <> "backups" -> p <> bn ->
            f' !! p = f !! p)).
Proof.
  intros Hl Hev Hsh Hop Hsql Hrot f f' bn. unfold f'. clear f'.
  rewrite (cleanup_reaches_rotation faulty r s d evs shares Hl Hev Hsh Hop Hsql).
  set (d' := maintained r d evs shares).
  split.
  - intros Hsize. unfold try_catch, bind.
    rewrite (rotation_skipped faulty r _ Hsize). cbn [snd fs console_log].
    assert (Hframe : forall p, p <> "events.db" ->
                       <["events.db" := DbFile d']> (fs s) !! p = f !! p).
    { intros p Hp. apply lookup_insert_ne. congruence. }
    split; [|split].
    + intros p (Hd & Hn & Hs).
      destruct (decide (p = "events.db")) as [->|Hp]; [discriminate Hd|].
      rewrite (Hframe p Hp), Hn in Hs. destruct Hs as [x Hx]. discriminate Hx.
    + apply lookup_insert_eq.
    + intros p Hp _. apply Hframe. exact Hp.
  - intros Hsize. destruct (Hrot Hsize) as (Hdir & Hren & Hdst).
    assert (Hbl : bn <> "events.db") by apply backupName_not_live.
    assert (Hbd : bn <> "backups") by apply backupName_not_dir.
    set (f1 := <["events.db" := DbFile d']> (fs s)).
    assert (Hd1 : f1 !! "backups" = Some Dir \/ f1 !! "backups" = None).
    { unfold f1. rewrite lookup_insert_ne by discriminate.
      destruct Hdir as [H|[H _]]; [left|right]; exact H. }
    assert (Hmk : f1 !! "backups" = None -> faulty (OpMkdir "backups") = false).
    { unfold f1. rewrite lookup_insert_ne by discriminate.
      intros Hn. destruct Hdir as [H|[_ H]]; [congruence | exact H]. }
    assert (Hl1 : f1 !! "events.db" = Some (DbFile d')) by apply lookup_insert_eq.
    assert (Hchk : rename_check faulty (ensure_backups f1) "events.db" bn = None).
    { unfold rename_check. fold bn in Hren. rewrite Hren.
      rewrite ensure_backups_other by discriminate. rewrite Hl1.
      unfold parent_is_dir. unfold bn at 1. rewrite dirname_backupName.
      rewrite (ensure_backups_dir _ Hd1). cbn [negb].
      rewrite (ensure_backups_other _ bn Hbd). unfold f1.
      rewrite lookup_insert_ne by congruence.
      fold bn in Hdst.
      destruct (fs s !! bn) as [[| | |]|]; try reflexivity. congruence. }
    unfold try_catch, bind.
    rewrite (rotation_succeeds faulty r
               {| fs := f1; console := console s ++ maintenance_log r evs shares |}
               d' Hsize Hl1 Hmk Hchk Hop Hsql).
    cbn [snd fs console console_log]. fold bn. fold f1.
    set (f2 := <["events.db" := DbFile fresh_database]>
                 (<[bn := on_disk r (DbFile d')]>
                    (delete "events.db" (ensure_backups f1)))).
    assert (Hframe : forall p, p <> "events.db" -> p <> "backups" -> p <> bn ->
                       f2 !! p = f !! p).
    { intros p Hp1 Hp2 Hp3. unfold f2.
      rewrite lookup_insert_ne by congruence.
      rewrite lookup_insert_ne by congruence.
      rewrite lookup_delete_ne by congruence.
      rewrite ensure_backups_other by exact Hp2.
      unfold f1. apply lookup_insert_ne. congruence. }
    assert (Hbackup : f2 !! bn = Some (on_disk r (DbFile d'))).
    { unfold f2. rewrite lookup_insert_ne by congruence. apply lookup_insert_eq. }
    split; [|split; [|split; [|split; [|split; [|split]]]]].
    + unfold f2. rewrite lookup_insert_ne by discriminate.
      rewrite lookup_insert_ne by exact Hbd.
      rewrite lookup_delete_ne by discriminate.
      apply ensure_backups_dir. exact Hd1.
    + apply dirname_backupName.
    + exact Hbackup.
    + apply lookup_insert_eq.
    + intros q (Hd & Hn & Hs).
      destruct (decide (q = bn)) as [Hq|Hq]; [exact Hq|].
      destruct (decide (q = "events.db")) as [->|Hq1]; [discriminate Hd|].
      destruct (decide (q = "backups")) as [->|Hq2]; [discriminate Hd|].
      rewrite (Hframe q Hq1 Hq2 Hq), Hn in Hs. destruct Hs as [x Hx]. discriminate Hx.
    + intros Hn. split; [apply dirname_backupName|]. split; [exact Hn|].
      rewrite Hbackup. eexists. reflexivity.
    + intros p Hp1 _ Hp2 Hp3. apply Hframe; assumption.
Qed.

End Rotation.

Lemma rotation_by_size_when_nothing_fails_witness :
  fs (snd (cleanupEventsDB no_faults small_reads sample_state)) !! "events.db"
  = Some (DbFile (maintained small_reads sample_db sample_events sample_shares))
  /\ fs (snd (cleanupEventsDB no_faults large_reads sample_state)) !! "events.db"
     = Some (DbFile fresh_database)
  /\ fs (snd (cleanupEventsDB no_faults large_reads sample_state))
       !! "backups/events_2023-11-14T22-13-20-000Z.db"
     = Some (DbFile sample_db)
  /\ backup_created (fs sample_state)
       (fs (snd (cleanupEventsDB no_faults large_reads sample_state)))
       "backups/events_2023-11-14T22-13-20-000Z.db".
Proof.
  assert (Hname : backupName (now_backup large_reads)
                  = "backups/events_2023-11-14T22-13-20-000Z.db")
    by (vm_compute; reflexivity).
  destruct (rotation_by_size_when_nothing_fails no_faults small_reads sample_state
              sample_db sample_events sample_shares) as [Hsmall _];
    try reflexivity.
  { intros H. vm_compute in H. discriminate H. }
  destruct (rotation_by_size_when_nothing_fails no_faults large_reads sample_state
              sample_db sample_events sample_shares) as [_ Hlarge];
    try reflexivity.
  { intros _. split; [right; split; reflexivity|]. split; [reflexivity|].
    vm_compute. discriminate. }
  destruct Hsmall as (_ & Hs & _); [vm_compute; discriminate|].
  destruct Hlarge as (_ & _ & Hb & Hf & _ & Hc & _); [reflexivity|].
  rewrite Hname in Hb, Hc.
  split; [exact Hs|]. split; [exact Hf|]. split; [exact Hb|].
  apply Hc. reflexivity.
Defined.

(** *** A refused rename *)

Section RenameFailure.

Variable faulty : op -> bool.

(** C6. When the rename of step 7 throws [e] - on the file system that
    steps 1 to 6 and the directory check have produced - the run returns
    normally, the live file holds exactly what steps 1 to 6 produced, no
    backup path is written, and the console shows the lines of steps 1
    to 6 with their counts, the announcement of the backup, and then the
    error entry carrying [e]; neither the backup line nor the line of
    successful completion is printed. *)
Theorem rename_failure_keeps_maintained_file
    (r : cleanup_reads) (s : state) (d : database)
    (evs : list Event) (shares : list ThemeShare) (e : error) :
  fs s !! "events.db" = Some (DbFile d) ->
  events d = Some evs -> theme_shares d = Some shares ->
  faulty (OpOpen "events.db") = false ->
  (forall q, faulty (OpSql "events.db" q) = false) ->
  50 * 1024 * 1024 < finalSize r ->
  (fs s !! "backups" = None -> faulty (OpMkdir "backups") = false) ->
  rename_check faulty
    (ensure_backups (<["events.db" := DbFile (maintained r d evs shares)]> (fs s)))
    "events.db" (backupName (now_backup r)) = Some e ->
  let s' := snd (cleanupEventsDB faulty r s) in
  fst (cleanupEventsDB faulty r s) = Ok tt
  /\ fs s' = ensure_backups
               (<["events.db" := DbFile (maintained r d evs shares)]> (fs s))
  /\ fs s' !! "events.db" = Some (DbFile (maintained r d evs shares))
  /\ fs s' !! backupName (now_backup r) = fs s !! backupName (now_backup r)
  /\ console s'
     = (console s ++ maintenance_log r evs shares
          ++ [ ConsoleLog "[Cleanup] Database still large, creating backup...";
               ConsoleError "[Cleanup] Error during cleanup:" e ])%list.
Proof.
  intros Hl Hev Hsh Hop Hsql Hsize Hmk Hren s'.
  split; [apply cleanup_never_throws|].
  unfold s'. clear s'.
  rewrite (cleanup_reaches_rotation faulty r s d evs shares Hl Hev Hsh Hop Hsql).
  assert (Hmk' : <["events.db" := DbFile (maintained r d evs shares)]> (fs s)
                   !! "backups" = None -> faulty (OpMkdir "backups") = false).
  { rewrite lookup_insert_ne by discriminate. exact Hmk. }
  unfold try_catch, bind.
  rewrite (rotation_rename_fails faulty r
             {| fs := <["events.db" := DbFile (maintained r d evs shares)]> (fs s);
                console := console s ++ maintenance_log r evs shares |}
             e Hsize Hmk' Hren).
  cbn [snd fs console console_error].
  split; [reflexivity|]. split; [|split].
  - rewrite ensure_backups_other by discriminate. apply lookup_insert_eq.
  - rewrite ensure_backups_other by apply backupName_not_dir.
    apply lookup_insert_ne. intros H. symmetry in H. revert H.
    apply backupName_not_live.
  - rewrite <- !app_assoc. reflexivity.
Qed.

End RenameFailure.

Lemma rename_failure_keeps_maintained_file_witness :
  rename_check rename_refused
    (ensure_backups
       (<["events.db" := DbFile (maintained large_reads sample_db sample_events
                                   sample_shares)]> (fs sample_state)))
    "events.db" (backupName (now_backup large_reads))
  = Some (Fault (OpRename "events.db" (backupName (now_backup large_reads))))
  /\ fst (cleanupEventsDB rename_refused large_reads sample_state) = Ok tt
  /\ fs (snd (cleanupEventsDB rename_refused large_reads sample_state)) !! "events.db"
     = Some (DbFile (maintained large_reads sample_db sample_events sample_shares)).
Proof.
  split; [reflexivity|].
  destruct (rename_failure_keeps_maintained_file rename_refused large_reads
              sample_state sample_db sample_events sample_shares
              (Fault (OpRename "events.db" (backupName (now_backup large_reads)))))
    as (H1 & _ & H3 & _); try reflexivity.
  split; [exact H1 | exact H3].
Defined.

(** ** [getDatabaseStats] *)

Section Stats.

Variable faulty : op -> bool.




Lemma select_leaves_database (q : stmt) (d d' : database) (n : Z) :
  is_select q = true -> exec_stmt q d = inr (n, d') -> d' = d.
Proof.
  intros Hq He. destruct q; try discriminate Hq; simpl in He;
    destruct (events d); try discriminate He; injection He as _ <-; reflexivity.
Qed.

Lemma select_leaves_text (q : stmt) (d d' : database) (others others' : list TextEvent)
    (n : Z) :
  is_select q = true -> exec_stmt_text q d others = inr (n, (d', others')) ->
  d' = d /\ others' = others.
Proof.
  intros Hq. unfold exec_stmt_text.
  destruct (exec_stmt q d) as [e|[m d1]] eqn:He; [discriminate|].
  pose proof (select_leaves_database q d d1 m Hq He) as ->.
  destruct q; try discriminate Hq; intros H; injection H as _ <- <-; split; reflexivity.
Qed.







(** What the [try] block returns when it returns. *)
Lemma stats_body_returns (r : stats_reads) (s s1 : state) (st : stats) :
  stats_body faulty r s = (Ok st, s1) ->
  size st = size_read r
  /\ sizeFormatted st = Js.megabytes_toFixed2 (size_read r) +:+ " MB"
  /\ lastCleanup st = Js.toISOString (now_report r).
Proof.
  unfold stats_body, bind, close, ret. intros H.
  repeat match type of H with
         | context [match ?x with _ => _ end] => destruct x as [[?|?] ?]
         end; try discriminate H.
  injection H as <- _. repeat split.
Qed.

(** The [try] block on a file that has its events table. *)
Lemma stats_body_succeeds (r : stats_reads) (s : state) (d : database)
    (evs : list Event) :
  fs s !! "events.db" = Some (DbFile d) -> events d = Some evs ->
  faulty (OpOpen "events.db") = false ->
  (forall q, faulty (OpSql "events.db" q) = false) ->
  stats_body faulty r s
  = (Ok {| size := size_read r;
           sizeFormatted := Js.megabytes_toFixed2 (size_read r) +:+ " MB";
           totalEvents := count (fun _ => true) evs;
           eventsLast7Days :=
             count (fun e => sevenDaysAgo (now_cutoff r) <? timestamp e) evs;
           oldEvents :=
             count (fun e => timestamp e <? sevenDaysAgo (now_cutoff r)) evs;
           largePayloads := count (fun e => 10000 <? LENGTH (payload e)) evs;
           lastCleanup := Js.toISOString (now_report r) |}, s).
Proof.
  intros Hl Hev Hop Hsql.
  unfold stats_body, bind, open_database, exec, close, ret, set_fs.
  rewrite Hop, Hl.
  repeat (rewrite ?Hsql, ?Hl; cbn [fs console exec_stmt]; rewrite ?Hev;
          rewrite ?(insert_id _ _ _ Hl)).
  destruct s; reflexivity.
Qed.

Lemma getDatabaseStats_of_body (r : stats_reads) (s : state) :
  getDatabaseStats faulty r s
  = match stats_body faulty r s with
    | (Ok st, s1) => (Ok st, s1)
    | (Throw e, s1) =>
        (Ok zero_stats,
         {| fs := fs s1;
            console := console s1
                         ++ [ConsoleError "[Stats] Error getting database stats:" e] |})
    end.
Proof.
  unfold getDatabaseStats, try_catch, bind, console_error, ret.
  destruct (stats_body faulty r s) as [[st|e] s1]; reflexivity.
Qed.

End Stats.

(** Every row is above, below or on a threshold. *)
Lemma count_trichotomy (c : Z) (evs : list Event) :
  count (fun _ => true) evs
  = count (fun e => c <? timestamp e) evs
    + count (fun e => timestamp e <? c) evs
    + count (fun e => timestamp e =? c) evs.
Proof.
  unfold count. induction evs as [|e evs IH]; simpl; [reflexivity|].
  destruct (Z.ltb_spec c (timestamp e)), (Z.ltb_spec (timestamp e) c),
    (Z.eqb_spec (timestamp e) c); simpl List.length; lia.
Qed.

Lemma count_all {A : Type} (l : list A) :
  count (fun _ => true) l = Z.of_nat (List.length l).
Proof.
  unfold count. f_equal. f_equal. induction l as [|x l IH]; simpl; congruence.
Qed.

Lemma count_positive {A : Type} (f : A -> bool) (l : list A) (x : A) :
  In x l -> f x = true -> 0 < count f l.
Proof.
  intros Hin Hf. unfold count.
  assert (H : In x (List.filter f l)) by (apply List.filter_In; split; assumption).
  destruct (List.filter f l); [contradiction | simpl; lia].
Qed.

Section StatsClaims.

Variable faulty : op -> bool.


(** C8. On a file that has its events table, the snapshot counts every
    row in [totalEvents], the rows strictly above the seven-day cutoff in
    [eventsLast7Days] and the rows strictly below it in [oldEvents]; the
    rows exactly on the cutoff are in neither, so the total is the sum of
    the two plus the number of rows on the cutoff: never less than the
    sum, and more whenever a row sits on the cutoff. *)
Theorem stats_cutoff_row_in_neither_count
    (r : stats_reads) (s : state) (d : database) (evs : list Event) :
  fs s !! "events.db" = Some (DbFile d) -> events d = Some evs ->
  faulty (OpOpen "events.db") = false ->
  (forall q, faulty (OpSql "events.db" q) = false) ->
  let cutoff := now_cutoff r - 7 * 24 * 60 * 60 * 1000 in
  exists st,
    getDatabaseStats faulty r s = (Ok st, s)
    /\ totalEvents st = Z.of_nat (List.length evs)
    /\ eventsLast7Days st = count (fun e => cutoff <? timestamp e) evs
    /\ oldEvents st = count (fun e => timestamp e <? cutoff) evs
    /\ totalEvents st
       = eventsLast7Days st + oldEvents st + count (fun e => timestamp e =? cutoff) evs
    /\ eventsLast7Days st + oldEvents st <= totalEvents st
    /\ ((exists e, In e evs /\ timestamp e = cutoff) ->
        eventsLast7Days st + oldEvents st < totalEvents st).
Proof.
  intros Hl Hev Hop Hsql cutoff.
  eexists. split.
  - rewrite getDatabaseStats_of_body.
    rewrite (stats_body_succeeds faulty r s d evs Hl Hev Hop Hsql). reflexivity.
  - cbn [totalEvents eventsLast7Days oldEvents].
    change (sevenDaysAgo (now_cutoff r)) with cutoff.
    pose proof (count_trichotomy cutoff evs) as Ht.
    pose proof (count_nonneg (fun e => timestamp e =? cutoff) evs) as Hz.
    split; [apply count_all|]. split; [reflexivity|]. split; [reflexivity|].
    split; [exact Ht|]. split; [lia|].
    intros (e & Hin & He).
    assert (0 < count (fun e => timestamp e =? cutoff) evs).
    { apply (count_positive _ _ e Hin). apply Z.eqb_eq. exact He. }
    lia.
Qed.

(** C9. [lastCleanup] records nothing about maintenance: when the [try]
    block returns, it is the ISO form of the clock read while building
    the answer; when the block throws, it is "Never"; and this holds just
    the same on the state left by any run of [cleanupEventsDB]. *)
Theorem lastCleanup_is_time_of_call (r : stats_reads) (s : state) :
  (forall st s1, stats_body faulty r s = (Ok st, s1) ->
     fst (getDatabaseStats faulty r s) = Ok st
     /\ lastCleanup st = Js.toISOString (now_report r))
  /\ (forall e s1, stats_body faulty r s = (Throw e, s1) ->
        exists st, fst (getDatabaseStats faulty r s) = Ok st
                   /\ lastCleanup st = "Never")
  /\ (forall (rc : cleanup_reads) st,
        fst (getDatabaseStats faulty r (snd (cleanupEventsDB faulty rc s))) = Ok st ->
        lastCleanup st = Js.toISOString (now_report r) \/ lastCleanup st = "Never").
Proof.
  split; [|split].
  - intros st s1 H. rewrite getDatabaseStats_of_body, H. split; [reflexivity|].
    apply (stats_body_returns faulty r s s1 st H).
  - intros e s1 H. rewrite getDatabaseStats_of_body, H. eexists.
    split; reflexivity.
  - intros rc st. rewrite getDatabaseStats_of_body.
    destruct (stats_body faulty r _) as [[st'|e] s1] eqn:H; simpl; intros E;
      injection E as <-.
    + left. apply (stats_body_returns faulty r _ s1 st' H).
    + right. reflexivity.
Qed.

End StatsClaims.

Lemma stats_cutoff_row_in_neither_count_witness :
  (exists e, In e sample_events
             /\ timestamp e = now_cutoff sample_stats_reads - 7 * 24 * 60 * 60 * 1000)
  /\ exists st,
       getDatabaseStats no_faults sample_stats_reads sample_state = (Ok st, sample_state)
       /\ totalEvents st = 5 /\ eventsLast7Days st = 3 /\ oldEvents st = 1.
Proof.
  split.
  - exists (sample_event 3 small_payload (sample_now - 7 * day_ms)).
    split; [right; right; left; reflexivity | reflexivity].
  - destruct (stats_cutoff_row_in_neither_count no_faults sample_stats_reads
                sample_state sample_db sample_events)
      as (st & Hrun & Ht & H7 & Ho & _); try reflexivity.
    exists st. rewrite Ht, H7, Ho. split; [exact Hrun|].
    split; [reflexivity|]. split; vm_compute; reflexivity.
Defined.



Lemma lastCleanup_is_time_of_call_witness :
  exists st,
    fst (getDatabaseStats no_faults sample_stats_reads sample_state) = Ok st
    /\ lastCleanup st = "2023-11-14T22:13:20.005Z".
Proof.
  destruct (lastCleanup_is_time_of_call no_faults sample_stats_reads sample_state)
    as (H & _).
  exists {| size := 4194304; sizeFormatted := "4.00 MB"; totalEvents := 5;
            eventsLast7Days := 3; oldEvents := 1; largePayloads := 2;
            lastCleanup := "2023-11-14T22:13:20.005Z" |}.
  split; [|reflexivity].
  apply (H _ sample_state). vm_compute. reflexivity.
Defined.

(** ** How the row statements compose *)

Lemma filter_filter_implied {A : Type} (f g : A -> bool) (l : list A) :
  (forall x, g x = true -> f x = true) ->
  List.filter g (List.filter f l) = List.filter g l.
Proof.
  intros H. induction l as [|x l IH]; simpl; [reflexivity|].
  destruct (f x) eqn:Hf; simpl.
  - rewrite IH. reflexivity.
  - destruct (g x) eqn:Hg; [|exact IH].
    rewrite (H x Hg) in Hf. discriminate Hf.
Qed.

Lemma share_kept_later (now1 now2 : Z) (s : ThemeShare) :
  now1 <= now2 -> negb (share_expired now2 s) = true -> negb (share_expired now1 s) = true.
Proof.
  intros Hle. unfold share_expired. destruct (expiresAt s) as [t|]; [|reflexivity].
  rewrite !negb_true_iff, !Z.ltb_ge. lia.
Qed.

(** X1. A later pass of the two DELETE statements subsumes an earlier
    one: deleting with cutoff [c1] and then with a cutoff [c2] at or
    after it leaves the same events as deleting with [c2] alone, and the
    same holds for the share deletion at times [now1 <= now2]; in
    particular each deletion repeated with the same time changes
    nothing. *)
Theorem later_deletion_subsumes_earlier
    (c1 c2 now1 now2 : Z) (evs : list Event) (shares : list ThemeShare) :
  c1 <= c2 -> now1 <= now2 ->
  delete_old_events c2 (delete_old_events c1 evs) = delete_old_events c2 evs
  /\ delete_expired_shares now2 (delete_expired_shares now1 shares)
     = delete_expired_shares now2 shares
  /\ delete_old_events c1 (delete_old_events c1 evs) = delete_old_events c1 evs
  /\ delete_expired_shares now1 (delete_expired_shares now1 shares)
     = delete_expired_shares now1 shares.
Proof.
  intros Hc Hn. unfold delete_old_events, delete_expired_shares.
  assert (He : forall a b, a <= b -> forall e : Event,
               negb (is_old b e) = true -> negb (is_old a e) = true).
  { intros a b Hab e. unfold is_old. rewrite !negb_true_iff, !Z.ltb_ge. lia. }
  split; [|split; [|split]].
  - apply filter_filter_implied. apply (He c1 c2 Hc).
  - apply filter_filter_implied. intros s. apply share_kept_later. exact Hn.
  - apply filter_filter_implied. apply (He c1 c1). lia.
  - apply filter_filter_implied. intros s. apply share_kept_later. lia.
Qed.

Lemma later_deletion_subsumes_earlier_witness :
  delete_old_events (sevenDaysAgo (sample_now + day_ms))
    (delete_old_events (sevenDaysAgo sample_now) sample_events)
  = delete_old_events (sevenDaysAgo (sample_now + day_ms)) sample_events.
Proof.
  apply (later_deletion_subsumes_earlier (sevenDaysAgo sample_now)
           (sevenDaysAgo (sample_now + day_ms)) 0 0 sample_events sample_shares).
  - vm_compute. discriminate.
  - lia.
Defined.

Lemma truncate_event_timestamp (c : Z) (e : Event) :
  timestamp (truncate_event c e) = timestamp e.
Proof. unfold truncate_event. destruct (truncation_applies c e); reflexivity. Qed.

Lemma truncate_event_id (c : Z) (e : Event) : id (truncate_event c e) = id e.
Proof. unfold truncate_event. destruct (truncation_applies c e); reflexivity. Qed.

Lemma filter_map_commute {A : Type} (f : A -> A) (g : A -> bool) (l : list A) :
  (forall x, g (f x) = g x) ->
  List.filter g (List.map f l) = List.map f (List.filter g l).
Proof.
  intros H. induction l as [|x l IH]; simpl; [reflexivity|].
  rewrite H. destruct (g x); simpl; rewrite IH; reflexivity.
Qed.

(** X2. The truncation statement never adds, drops or reorders rows and
    never changes an id or a timestamp; hence it commutes with the age
    deletion: truncating and then deleting gives the same table as
    deleting and then truncating, whatever the two cutoffs. *)
Theorem truncation_keeps_rows_and_commutes_with_deletion
    (c_delete c_truncate : Z) (evs : list Event) :
  List.length (truncate_large_payloads c_truncate evs) = List.length evs
  /\ List.map id (truncate_large_payloads c_truncate evs) = List.map id evs
  /\ List.map timestamp (truncate_large_payloads c_truncate evs)
     = List.map timestamp evs
  /\ delete_old_events c_delete (truncate_large_payloads c_truncate evs)
     = truncate_large_payloads c_truncate (delete_old_events c_delete evs).
Proof.
  unfold truncate_large_payloads. split; [|split; [|split]].
  - apply List.length_map.
  - rewrite List.map_map. apply List.map_ext. apply truncate_event_id.
  - rewrite List.map_map. apply List.map_ext. apply truncate_event_timestamp.
  - unfold delete_old_events. apply filter_map_commute.
    intros e. unfold is_old. rewrite truncate_event_timestamp. reflexivity.
Qed.

(** ** The backup file name, character by character *)

Lemma occurs_app (c : ascii) (a b : string) :
  occurs c (a +:+ b) = occurs c a || occurs c b.
Proof.
  induction a as [|x a IH].
  - reflexivity.
  - change (occurs c (String x (a +:+ b)) = occurs c (String x a) || occurs c b).
    cbn [occurs]. rewrite IH. apply orb_assoc.
Qed.

Lemma occurs_slash (s : string) : occurs "/" s = has_slash s.
Proof. induction s as [|a s IH]; simpl; [reflexivity|]. rewrite IH. reflexivity. Qed.

Lemma replace_colon_dot_clean (s : string) :
  occurs ":" (Js.replace_colon_dot s) = false
  /\ occurs "." (Js.replace_colon_dot s) = false.
Proof.
  induction s as [|a s [IH1 IH2]]; simpl; [split; reflexivity|].
  rewrite IH1, IH2, !orb_false_r.
  destruct (Ascii.eqb a ":") eqn:E1; [split; reflexivity|].
  destruct (Ascii.eqb a ".") eqn:E2; [split; reflexivity|].
  cbn [orb]. rewrite E1, E2. split; reflexivity.
Qed.

(** X3. Whatever the time of the rotation, the backup path is
    [backups/events_<stamp>.db] where the stamp holds no colon, no dot
    and no slash: the path has no colon at all, its only dot is the one
    of the extension, and it lies directly inside [backups], apart from
    the live path and from the directory itself. *)
Theorem backup_name_is_filesystem_safe (t : Z) :
  exists stamp,
    backupName t = "backups/events_" +:+ stamp +:+ ".db"
    /\ occurs ":" stamp = false
    /\ occurs "." stamp = false
    /\ occurs "/" stamp = false
    /\ occurs ":" (backupName t) = false
    /\ dirname (backupName t) = Some "backups"
    /\ backupName t <> "events.db"
    /\ backupName t <> "backups".
Proof.
  exists (Js.replace_colon_dot (Js.toISOString t)).
  destruct (replace_colon_dot_clean (Js.toISOString t)) as [Hc Hd].
  split; [reflexivity|]. split; [exact Hc|]. split; [exact Hd|].
  split; [rewrite occurs_slash, replace_colon_dot_no_slash;
          apply toISOString_no_slash|].
  split; [unfold backupName; rewrite !occurs_app, Hc; reflexivity|].
  split; [apply dirname_backupName|].
  split; [apply backupName_not_live | apply backupName_not_dir].
Qed.

(** ** What every run logs and touches *)

Section EveryRun.

Variable faulty : op -> bool.

Lemma logs_info_quiet {A : Type} (m : M A) :
  (forall s, console (snd (m s)) = console s) -> logs_info m.
Proof.
  intros H s. exists []. rewrite app_nil_r. split; [apply H | constructor].
Qed.

Lemma logs_info_bind {A B : Type} (m : M A) (k : A -> M B) :
  logs_info m -> (forall a, logs_info (k a)) -> logs_info (bind m k).
Proof.
  intros Hm Hk s. unfold bind. destruct (Hm s) as (l1 & E1 & F1).
  destruct (m s) as [[a|e] s1]; simpl in *.
  - destruct (Hk a s1) as (l2 & E2 & F2). exists (l1 ++ l2)%list.
    rewrite E2, E1, app_assoc. split; [reflexivity | apply Forall_app; split; assumption].
  - exists l1. split; assumption.
Qed.

Lemma logs_info_console_log (msg : string) : logs_info (console_log msg).
Proof.
  intros s. exists [ConsoleLog msg]. split; [reflexivity|].
  constructor; [exact I | constructor].
Qed.

Lemma logs_info_ret {A : Type} (a : A) : logs_info (ret a).
Proof. apply logs_info_quiet. reflexivity. Qed.

Lemma logs_info_open (p : string) : logs_info (open_database faulty p).
Proof.
  apply logs_info_quiet. intros s. unfold open_database.
  destruct (faulty _); [reflexivity|]. destruct (fs s !! p) as [[| | |]|]; reflexivity.
Qed.

Lemma logs_info_exec (p : string) (q : stmt) : logs_info (exec faulty p q).
Proof.
  apply logs_info_quiet. intros s. unfold exec.
  destruct (faulty _); [reflexivity|]. destruct (fs s !! p) as [[|d| |d others]|]; try reflexivity.
  - destruct (exec_stmt q d) as [e|[n d']]; reflexivity.
  - destruct (exec_stmt_text q d others) as [e|[n [d' others']]]; reflexivity.
Qed.

Lemma logs_info_exec_all (p : string) (l : list stmt) : logs_info (exec_all faulty p l).
Proof.
  induction l as [|q l IH]; simpl; [apply logs_info_ret|].
  apply logs_info_bind; [apply logs_info_exec | intros _; exact IH].
Qed.

Lemma logs_info_mkdir (p : string) : logs_info (mkdirSync faulty p).
Proof.
  apply logs_info_quiet. intros s. unfold mkdirSync.
  destruct (faulty _); [reflexivity|]. destruct (fs s !! p); reflexivity.
Qed.

Lemma logs_info_rename (g : node -> node) (src dst : string) :
  logs_info (renameSync faulty g src dst).
Proof.
  apply logs_info_quiet. intros s. unfold renameSync.
  destruct (rename_check faulty (fs s) src dst); [reflexivity|].
  destruct (fs s !! src); reflexivity.
Qed.

Lemma logs_info_rotation (r : cleanup_reads) : logs_info (backup_rotation faulty r).
Proof.
  unfold backup_rotation. destruct (_ <? _); [|apply logs_info_ret].
  apply logs_info_bind; [apply logs_info_console_log | intros _].
  apply logs_info_bind; [apply logs_info_quiet; reflexivity | intros known].
  apply logs_info_bind;
    [destruct (negb known); [apply logs_info_mkdir | apply logs_info_ret] | intros _].
  apply logs_info_bind; [apply logs_info_rename | intros _].
  apply logs_info_bind; [apply logs_info_console_log | intros _].
  apply logs_info_bind; [apply logs_info_open | intros newDb].
  apply logs_info_bind; [apply logs_info_exec_all | intros _].
  apply logs_info_bind; [apply logs_info_ret | intros _].
  apply logs_info_console_log.
Qed.

Lemma ends_with_console_log (msg : string) :
  ends_with (ConsoleLog msg) (console_log msg).
Proof.
  intros s a s' H. injection H as _ <-. exists []. split; [reflexivity | constructor].
Qed.

Lemma ends_with_bind {A B : Type} (x : log_entry) (m : M A) (k : A -> M B) :
  logs_info m -> (forall a, ends_with x (k a)) -> ends_with x (bind m k).
Proof.
  intros Hm Hk s b s' H. unfold bind in H. destruct (Hm s) as (l1 & E1 & F1).
  destruct (m s) as [[a|e] s1]; simpl in *; [|discriminate H].
  destruct (Hk a s1 b s' H) as (l2 & E2 & F2). exists (l1 ++ l2)%list.
  rewrite E2, E1, <- !app_assoc. split; [reflexivity | apply Forall_app; split; assumption].
Qed.

Ltac info_step :=
  first [ apply logs_info_console_log | apply logs_info_exec | apply logs_info_open
        | apply logs_info_rotation | apply logs_info_ret ].

Lemma cleanup_body_logs_info (r : cleanup_reads) : logs_info (cleanup_body faulty r).
Proof.
  unfold cleanup_body, close.
  repeat (apply logs_info_bind; [info_step | intros ?]).
  info_step.
Qed.

Lemma cleanup_body_ends_with (r : cleanup_reads) :
  ends_with (ConsoleLog "[Cleanup] Database cleanup completed successfully")
    (cleanup_body faulty r).
Proof.
  unfold cleanup_body, close.
  repeat (apply ends_with_bind; [info_step | intros ?]).
  apply ends_with_console_log.
Qed.

(** X4. Every run, whatever fails in it, returns normally and brackets
    its console output: the opening line first, then only [console.log]
    lines, and last either the line of successful completion - exactly
    when the [try] block ran to its end - or one [console.error] entry
    carrying the error that ended the block. *)
Theorem every_run_logs_start_and_one_verdict (r : cleanup_reads) (s : state) :
  fst (cleanupEventsDB faulty r s) = Ok tt
  /\ exists l x,
       console (snd (cleanupEventsDB faulty r s))
       = (console s ++ ConsoleLog "[Cleanup] Starting database cleanup..." :: l ++ [x])%list
       /\ Forall is_info l
       /\ ((x = ConsoleLog "[Cleanup] Database cleanup completed successfully"
            /\ exists s1, cleanup_body faulty r
                            {| fs := fs s;
                               console := console s
                                 ++ [ConsoleLog "[Cleanup] Starting database cleanup..."] |}
                          = (Ok tt, s1))
           \/ (exists e s1,
                 x = ConsoleError "[Cleanup] Error during cleanup:" e
                 /\ cleanup_body faulty r
                      {| fs := fs s;
                         console := console s
                           ++ [ConsoleLog "[Cleanup] Starting database cleanup..."] |}
                    = (Throw e, s1))).
Proof.
  split; [apply cleanup_never_throws|].
  unfold cleanupEventsDB, bind, try_catch, console_log, console_error.
  set (s0 := {| fs := fs s;
                console := console s
                  ++ [ConsoleLog "[Cleanup] Starting database cleanup..."] |}).
  destruct (cleanup_body faulty r s0) as [[[]|e] s1] eqn:E; cbn [snd console].
  - destruct (cleanup_body_ends_with r s0 tt s1 E) as (l & El & Fl).
    exists l, (ConsoleLog "[Cleanup] Database cleanup completed successfully").
    rewrite El. unfold s0. cbn [console]. rewrite <- !app_assoc.
    split; [reflexivity|]. split; [exact Fl|]. left. split; [reflexivity|].
    exists s1. reflexivity.
  - destruct (cleanup_body_logs_info r s0) as (l & El & Fl). rewrite E in El.
    cbn [snd] in El.
    exists l, (ConsoleError "[Cleanup] Error during cleanup:" e).
    rewrite El. unfold s0. cbn [console]. rewrite <- !app_assoc.
    split; [reflexivity|]. split; [exact Fl|]. right. exists e, s1.
    split; reflexivity.
Qed.

End EveryRun.

Section Frame.

Variable faulty : op -> bool.

Lemma touches_only_bind {A B : Type} (paths : list string) (m : M A) (k : A -> M B) :
  touches_only paths m ->
  (forall s a s1, m s = (Ok a, s1) -> touches_only paths (k a)) ->
  touches_only paths (bind m k).
Proof.
  intros Hm Hk s p Hp. unfold bind. specialize (Hm s p Hp).
  destruct (m s) as [[a|e] s1] eqn:E; simpl in *; [|exact Hm].
  rewrite (Hk s a s1 E s1 p Hp). exact Hm.
Qed.

Lemma touches_only_try {A : Type} (paths : list string) (m : M A) (h : error -> M A) :
  touches_only paths m -> (forall e, touches_only paths (h e)) ->
  touches_only paths (try_catch m h).
Proof.
  intros Hm Hh s p Hp. unfold try_catch. specialize (Hm s p Hp).
  destruct (m s) as [[a|e] s1]; simpl in *; [exact Hm|].
  rewrite (Hh e s1 p Hp). exact Hm.
Qed.

Lemma touches_only_keeps {A : Type} (paths : list string) (m : M A) :
  (forall s, fs (snd (m s)) = fs s) -> touches_only paths m.
Proof. intros H s p _. rewrite H. reflexivity. Qed.

Lemma touches_only_open (paths : list string) (p : string) :
  In p paths -> touches_only paths (open_database faulty p).
Proof.
  intros Hin s p' Hp. unfold open_database.
  destruct (faulty _); [reflexivity|].
  destruct (fs s !! p) as [[| | |]|]; try reflexivity.
  simpl. apply lookup_insert_ne. intros ->. exact (Hp Hin).
Qed.

Lemma open_database_returns (p : string) (s s1 : state) (a : string) :
  open_database faulty p s = (Ok a, s1) -> a = p.
Proof.
  unfold open_database. destruct (faulty _); [discriminate|].
  destruct (fs s !! p) as [[| | |]|]; intros H; try discriminate H;
    injection H as <- _; reflexivity.
Qed.

Lemma touches_only_exec (paths : list string) (p : string) (q : stmt) :
  In p paths -> touches_only paths (exec faulty p q).
Proof.
  intros Hin s p' Hp. unfold exec.
  destruct (faulty _); [reflexivity|].
  destruct (fs s !! p) as [[|d| |d others]|]; try reflexivity.
  - destruct (exec_stmt q d) as [e|[n d']]; [reflexivity|].
    simpl. apply lookup_insert_ne. intros ->. exact (Hp Hin).
  - destruct (exec_stmt_text q d others) as [e|[n [d' others']]]; [reflexivity|].
    simpl. apply lookup_insert_ne. intros ->. exact (Hp Hin).
Qed.

Lemma touches_only_exec_all (paths : list string) (p : string) (l : list stmt) :
  In p paths -> touches_only paths (exec_all faulty p l).
Proof.
  intros Hin. induction l as [|q l IH]; simpl.
  - apply touches_only_keeps. reflexivity.
  - apply touches_only_bind; [apply touches_only_exec; exact Hin | intros; exact IH].
Qed.

Lemma touches_only_mkdir (paths : list string) (p : string) :
  In p paths -> touches_only paths (mkdirSync faulty p).
Proof.
  intros Hin s p' Hp. unfold mkdirSync.
  destruct (faulty _); [reflexivity|].
  destruct (fs s !! p); [reflexivity|].
  simpl. apply lookup_insert_ne. intros ->. exact (Hp Hin).
Qed.

Lemma touches_only_rename (paths : list string) (g : node -> node) (src dst : string) :
  In src paths -> In dst paths -> touches_only paths (renameSync faulty g src dst).
Proof.
  intros Hs Hd s p' Hp. unfold renameSync.
  destruct (rename_check faulty (fs s) src dst); [reflexivity|].
  destruct (fs s !! src); [|reflexivity].
  simpl. rewrite lookup_insert_ne by (intros ->; exact (Hp Hd)).
  apply lookup_delete_ne. intros ->. exact (Hp Hs).
Qed.

Lemma touches_only_rotation (r : cleanup_reads) :
  touches_only ["events.db"; "backups"; backupName (now_backup r)]
    (backup_rotation faulty r).
Proof.
  unfold backup_rotation, close.
  destruct (_ <? _); [|apply touches_only_keeps; reflexivity].
  apply touches_only_bind; [apply touches_only_keeps; reflexivity | intros _ _ _ _].
  apply touches_only_bind; [apply touches_only_keeps; reflexivity | intros _ known _ _].
  apply touches_only_bind.
  { destruct (negb known); [apply touches_only_mkdir; simpl; tauto
                           | apply touches_only_keeps; reflexivity]. }
  intros _ _ _ _.
  apply touches_only_bind; [apply touches_only_rename; simpl; tauto | intros _ _ _ _].
  apply touches_only_bind; [apply touches_only_keeps; reflexivity | intros _ _ _ _].
  apply touches_only_bind; [apply touches_only_open; simpl; tauto | intros s0 newDb s1 E].
  apply open_database_returns in E. subst newDb.
  apply touches_only_bind; [apply touches_only_exec_all; simpl; tauto | intros _ _ _ _].
  apply touches_only_bind;
    [apply touches_only_keeps; reflexivity
    | intros _ _ _ _; apply touches_only_keeps; reflexivity].
Qed.

Ltac frame_step :=
  first [ apply touches_only_exec; simpl; tauto
        | apply touches_only_rotation
        | apply touches_only_keeps; reflexivity ].

Lemma touches_only_cleanup (r : cleanup_reads) :
  touches_only ["events.db"; "backups"; backupName (now_backup r)]
    (cleanupEventsDB faulty r).
Proof.
  unfold cleanupEventsDB.
  apply touches_only_bind; [apply touches_only_keeps; reflexivity | intros _ _ _ _].
  apply touches_only_try; [|intros e; apply touches_only_keeps; reflexivity].
  unfold cleanup_body, close.
  apply touches_only_bind; [apply touches_only_open; simpl; tauto | intros s0 db s1 E].
  apply open_database_returns in E. subst db.
  repeat (apply touches_only_bind; [frame_step | intros ? ? ? _]).
  frame_step.
Qed.


End Frame.


(** ** Runs that end early *)

Section EarlyEnd.

Variable faulty : op -> bool.


(** X7. When no file exists at the live path, opening creates one: the
    run switches it to WAL mode, finds no events table, and stops there.
    What it leaves is a database file without any table - the schema is
    only ever created after a rotation - and no rotation is attempted
    whatever size is measured. *)
Theorem missing_live_file_is_created_without_schema (r : cleanup_reads) (s : state) :
  fs s !! "events.db" = None ->
  faulty (OpOpen "events.db") = false ->
  (forall q, faulty (OpSql "events.db" q) = false) ->
  cleanupEventsDB faulty r s
  = (Ok tt,
     {| fs := <["events.db" := DbFile (set_wal empty_database)]> (fs s);
        console :=
          (console s
             ++ [ ConsoleLog "[Cleanup] Starting database cleanup...";
                  ConsoleLog ("[Cleanup] Initial DB size: "
                                +:+ Js.megabytes_toFixed2 (initialSize r) +:+ " MB");
                  ConsoleError "[Cleanup] Error during cleanup:"
                    (NoSuchTable "events") ])%list |}).
Proof.
  intros Hn Hop Hsql.
  unfold cleanupEventsDB, try_catch, cleanup_body, bind, open_database, exec,
    console_log, console_error, set_fs.
  cbn [fs console]. rewrite Hop, Hn. cbn [fs console].
  repeat (rewrite ?Hsql, ?lookup_insert_eq;
          cbn [exec_stmt set_wal events empty_database fs console]).
  rewrite ?insert_insert_eq, <- !app_assoc. reflexivity.
Qed.

(** X8. The steps commit one by one, with no transaction around them:
    when the share deletion of step 3 fails - the theme_shares table is
    missing, or the environment fails the statement - the deletions of
    step 1 and the truncations of step 2 stay in the live file, steps 4
    to 7 are skipped (no VACUUM, no rotation even above 50 MB), and the
    console shows the two counts followed by the error. *)
Theorem failed_share_deletion_keeps_earlier_steps
    (r : cleanup_reads) (s : state) (d : database) (evs : list Event) :
  fs s !! "events.db" = Some (DbFile d) ->
  events d = Some evs ->
  faulty (OpOpen "events.db") = false ->
  (forall q, q <> DeleteExpiredShares (now_expiry r) ->
             faulty (OpSql "events.db" q) = false) ->
  faulty (OpSql "events.db" (DeleteExpiredShares (now_expiry r))) = true
  \/ theme_shares d = None ->
  let kept := delete_old_events (sevenDaysAgo (now_retention r)) evs in
  let rows := truncate_large_payloads (oneDayAgo (now_truncation r)) kept in
  exists e,
    (e = Fault (OpSql "events.db" (DeleteExpiredShares (now_expiry r)))
     \/ e = NoSuchTable "theme_shares")
    /\ cleanupEventsDB faulty r s
       = (Ok tt,
          {| fs := <["events.db" := DbFile (set_events (set_events (set_wal d) kept) rows)]>
                     (fs s);
             console :=
               (console s
                  ++ [ ConsoleLog "[Cleanup] Starting database cleanup...";
                       ConsoleLog ("[Cleanup] Initial DB size: "
                                     +:+ Js.megabytes_toFixed2 (initialSize r) +:+ " MB");
                       ConsoleLog ("[Cleanup] Deleted "
                                     +:+ Js.dec (count (is_old (sevenDaysAgo (now_retention r))) evs)
                                     +:+ " events older than 7 days");
                       ConsoleLog ("[Cleanup] Truncated "
                                     +:+ Js.dec (count (truncation_applies
                                                          (oneDayAgo (now_truncation r))) kept)
                                     +:+ " large payloads");
                       ConsoleError "[Cleanup] Error during cleanup:" e ])%list |}).
Proof.
  intros Hl Hev Hop Hsql Hfail kept rows.
  assert (E : forall c,
             exists e,
               (e = Fault (OpSql "events.db" (DeleteExpiredShares (now_expiry r)))
                \/ e = NoSuchTable "theme_shares")
               /\ exec faulty "events.db" (DeleteExpiredShares (now_expiry r))
                    {| fs := <["events.db" := DbFile (set_events (set_events (set_wal d) kept) rows)]>
                               (fs s);
                       console := c |}
                  = (Throw e,
                     {| fs := <["events.db" := DbFile (set_events (set_events (set_wal d) kept) rows)]>
                                (fs s);
                        console := c |})).
  { intros c. unfold exec. cbn [fs console].
    destruct (faulty (OpSql "events.db" (DeleteExpiredShares (now_expiry r)))) eqn:Hf.
    - eexists. split; [left; reflexivity | reflexivity].
    - destruct Hfail as [Hfail|Hfail]; [discriminate|].
      rewrite lookup_insert_eq. cbn [exec_stmt theme_shares set_events set_wal].
      rewrite Hfail. eexists. split; [right; reflexivity | reflexivity]. }
  unfold cleanupEventsDB, try_catch, cleanup_body.
  unfold bind at 1. cbn [console_log].
  unfold bind at 1. unfold open_database at 1. cbn [fs console]. rewrite Hop, Hl.
  unfold bind at 1. unfold exec at 1. cbn [fs console].
  rewrite Hsql by discriminate. rewrite Hl. cbn [exec_stmt]. unfold set_fs at 1.
  cbn [fs console].
  unfold bind at 1. cbn [console_log fs console].
  unfold bind at 1. unfold exec at 1. cbn [fs console].
  rewrite Hsql by discriminate. rewrite lookup_insert_eq.
  cbn [exec_stmt events set_wal]. rewrite Hev. unfold set_fs at 1. cbn [fs console].
  unfold bind at 1. cbn [console_log fs console].
  unfold bind at 1. unfold exec at 1. cbn [fs console].
  rewrite Hsql by discriminate. rewrite lookup_insert_eq.
  cbn [exec_stmt events set_events]. unfold set_fs at 1. cbn [fs console].
  unfold bind at 1. cbn [console_log fs console].
  rewrite !insert_insert_eq.
  fold kept. fold rows.
  unfold bind at 1.
  match goal with
  | |- context [exec faulty "events.db" (DeleteExpiredShares _) {| fs := _; console := ?c |}] =>
      destruct (E c) as (e & He & Hx)
  end.
  rewrite Hx. exists e. split; [exact He|].
  unfold console_error. cbn [fs console]. rewrite <- !app_assoc. reflexivity.
Qed.

End EarlyEnd.


Lemma missing_live_file_is_created_without_schema_witness :
  fs (snd (cleanupEventsDB no_faults large_reads empty_state)) !! "events.db"
  = Some (DbFile (set_wal empty_database)).
Proof.
  rewrite (missing_live_file_is_created_without_schema no_faults large_reads empty_state);
    reflexivity.
Defined.

Lemma failed_share_deletion_keeps_earlier_steps_witness :
  exists e,
    console (snd (cleanupEventsDB no_faults large_reads
                    {| fs := {["events.db" := DbFile sample_db_without_shares]};
                       console := [] |}))
    = [ ConsoleLog "[Cleanup] Starting database cleanup...";
        ConsoleLog "[Cleanup] Initial DB size: 60.00 MB";
        ConsoleLog "[Cleanup] Deleted 1 events older than 7 days";
        ConsoleLog "[Cleanup] Truncated 1 large payloads";
        ConsoleError "[Cleanup] Error during cleanup:" e ].
Proof.
  destruct (failed_share_deletion_keeps_earlier_steps no_faults large_reads
              {| fs := {["events.db" := DbFile sample_db_without_shares]};
                 console := [] |}
              sample_db_without_shares sample_events)
    as (e & _ & H); try reflexivity.
  - right. reflexivity.
  - exists e. rewrite H. vm_compute. reflexivity.
Defined.

(** ** Every snapshot *)

Lemma count_le_all {A : Type} (f : A -> bool) (l : list A) :
  count f l <= count (fun _ => true) l.
Proof.
  unfold count. induction l as [|x l IH]; simpl; [lia|].
  destruct (f x); simpl List.length; lia.
Qed.

Lemma toISOString_has_dash (t : Z) : occurs "-" (Js.toISOString t) = true.
Proof.
  unfold Js.toISOString. destruct (Js.civil_from_days _) as [[y m] d].
  rewrite !occurs_app. cbn [occurs Ascii.eqb Bool.eqb orb].
  rewrite !orb_true_r. reflexivity.
Qed.

Lemma computed_stats_not_zero (r : stats_reads) (evs : list Event) :
  computed_stats r evs <> zero_stats.
Proof.
  intros H. apply (f_equal lastCleanup) in H. cbn [lastCleanup computed_stats zero_stats] in H.
  pose proof (toISOString_has_dash (now_report r)) as Hd. rewrite H in Hd.
  discriminate Hd.
Qed.

Lemma toISOString_not_never (t : Z) : Js.toISOString t <> "Never".
Proof.
  intros H. pose proof (toISOString_has_dash t) as Hd. rewrite H in Hd. discriminate Hd.
Qed.

Lemma count_trichotomy_by {A : Type} (t : A -> Z) (c : Z) (l : list A) :
  count (fun _ => true) l
  = count (fun x => c <? t x) l + count (fun x => t x <? c) l
    + count (fun x => t x =? c) l.
Proof.
  unfold count. induction l as [|x l IH]; simpl; [reflexivity|].
  destruct (Z.ltb_spec c (t x)), (Z.ltb_spec (t x) c), (Z.eqb_spec (t x) c);
    simpl List.length; lia.
Qed.

Section EverySnapshot.

Variable faulty : op -> bool.

Lemma exec_select_inv (p : string) (q : stmt) (s s1 : state) (n : Z) :
  is_select q = true -> exec faulty p q s = (Ok n, s1) ->
  s1 = s /\ exists evs others,
    table_rows (fs s !! p) = Some (evs, others) /\ n = select_count q evs others.
Proof.
  intros Hq. unfold exec. destruct (faulty _); [discriminate|].
  destruct (fs s !! p) as [[|d| |d others]|] eqn:Hl; try discriminate.
  - destruct (exec_stmt q d) as [e|[n' d']] eqn:He; [discriminate|].
    intros H. injection H as -> <-.
    pose proof (select_leaves_database q d d' n Hq He) as ->.
    split; [rewrite (insert_id _ _ _ Hl); apply set_fs_same|].
    cbn [table_rows].
    destruct q; try discriminate Hq; cbn [exec_stmt] in He;
      (destruct (events d) as [evs|]; [|discriminate He]);
      injection He as <-; exists evs, []; (split; [reflexivity|]);
      cbn [select_count]; unfold count at 2; cbn [List.filter List.length];
      rewrite Z.add_0_r; reflexivity.
  - destruct (exec_stmt_text q d others) as [e|[n' [d' others']]] eqn:He; [discriminate|].
    intros H. injection H as -> <-.
    destruct (select_leaves_text q d d' others others' n Hq He) as [-> ->].
    split; [rewrite (insert_id _ _ _ Hl); apply set_fs_same|].
    cbn [table_rows]. unfold exec_stmt_text in He.
    destruct q; try discriminate Hq; cbn [exec_stmt] in He;
      (destruct (events d) as [evs|]; [|discriminate He]);
      injection He as <-; exists evs, others; (split; reflexivity).
Qed.

Lemma keeps_console_bind {A B : Type} (m : M A) (k : A -> M B) :
  keeps_console m -> (forall a, keeps_console (k a)) -> keeps_console (bind m k).
Proof.
  intros Hm Hk s. unfold bind. specialize (Hm s).
  destruct (m s) as [[a|e] s1]; simpl in *; [|exact Hm].
  rewrite (Hk a s1). exact Hm.
Qed.

Lemma keeps_console_exec (p : string) (q : stmt) : keeps_console (exec faulty p q).
Proof.
  intros s. unfold exec.
  destruct (faulty _); [reflexivity|]. destruct (fs s !! p) as [[|d| |d others]|]; try reflexivity.
  - destruct (exec_stmt q d) as [e|[n d']]; reflexivity.
  - destruct (exec_stmt_text q d others) as [e|[n [d' others']]]; reflexivity.
Qed.

Lemma keeps_console_open (p : string) : keeps_console (open_database faulty p).
Proof.
  intros s. unfold open_database.
  destruct (faulty _); [reflexivity|]. destruct (fs s !! p) as [[| | |]|]; reflexivity.
Qed.

Lemma stats_body_keeps_console (r : stats_reads) : keeps_console (stats_body faulty r).
Proof.
  unfold stats_body, close.
  apply keeps_console_bind; [apply keeps_console_open | intros db].
  repeat (apply keeps_console_bind; [apply keeps_console_exec | intros ?]).
  apply keeps_console_bind; intros; intros ?; reflexivity.
Qed.

(** The [try] block returns only on a database file that has its events
    table, with the snapshot computed from its rows and the state as it
    was. *)
Lemma stats_body_ok_inv (r : stats_reads) (s s1 : state) (st : stats) :
  stats_body faulty r s = (Ok st, s1) ->
  s1 = s /\ exists evs others,
    table_rows (fs s !! "events.db") = Some (evs, others)
    /\ st = computed_stats_rows r evs others.
Proof.
  unfold stats_body, bind, close, ret. intros H.
  destruct (open_database faulty "events.db" s) as [[db|e] s0] eqn:Eo; [|discriminate H].
  pose proof (open_database_returns faulty _ _ _ _ Eo) as ->.
  destruct (exec faulty "events.db" CountEvents s0) as [[n1|e] s2] eqn:E1;
    [|discriminate H].
  destruct (exec_select_inv "events.db" CountEvents _ _ _ eq_refl E1)
    as (-> & evs & others & Hl & ->).
  destruct (exec faulty "events.db" (CountEventsAfter _) s0) as [[n2|e] s3] eqn:E2;
    [|discriminate H].
  destruct (exec_select_inv "events.db" (CountEventsAfter _) _ _ _ eq_refl E2)
    as (-> & evs2 & others2 & Hl2 & ->).
  destruct (exec faulty "events.db" (CountEventsBefore _) s0) as [[n3|e] s4] eqn:E3;
    [|discriminate H].
  destruct (exec_select_inv "events.db" (CountEventsBefore _) _ _ _ eq_refl E3)
    as (-> & evs3 & others3 & Hl3 & ->).
  destruct (exec faulty "events.db" CountLargePayloads s0) as [[n4|e] s5] eqn:E4;
    [|discriminate H].
  destruct (exec_select_inv "events.db" CountLargePayloads _ _ _ eq_refl E4)
    as (-> & evs4 & others4 & Hl4 & ->).
  rewrite Hl in Hl2, Hl3, Hl4.
  injection Hl2 as <- <-. injection Hl3 as <- <-. injection Hl4 as <- <-.
  injection H as <- <-.
  (* the file was there before the open, so the open changed nothing *)
  unfold open_database in Eo. destruct (faulty _); [discriminate Eo|].
  destruct (fs s !! "events.db") as [[|d0| |d0 others0]|] eqn:Hs; try discriminate Eo.
  - injection Eo as <-. split; [reflexivity|]. exists evs, others.
    rewrite Hs in Hl. split; [exact Hl | reflexivity].
  - injection Eo as <-. rewrite Hs in Hl. discriminate Hl.
  - injection Eo as <-. split; [reflexivity|]. exists evs, others.
    rewrite Hs in Hl. split; [exact Hl | reflexivity].
  - injection Eo as <-. simpl in Hl. rewrite lookup_insert_eq in Hl. discriminate Hl.
Qed.

(** X9. Whatever the file system and the failures, the counts of the
    snapshot that [getDatabaseStats] returns are consistent: none is
    negative, each partial count is at most [totalEvents], and
    [eventsLast7Days] and [oldEvents] together are at most
    [totalEvents]. *)
Theorem every_snapshot_has_consistent_counts
    (r : stats_reads) (s : state) (st : stats) :
  fst (getDatabaseStats faulty r s) = Ok st ->
  0 <= eventsLast7Days st <= totalEvents st
  /\ 0 <= oldEvents st <= totalEvents st
  /\ 0 <= largePayloads st <= totalEvents st
  /\ eventsLast7Days st + oldEvents st <= totalEvents st.
Proof.
  rewrite getDatabaseStats_of_body.
  destruct (stats_body faulty r s) as [[st'|e] s1] eqn:E; simpl; intros H;
    injection H as <-.
  - destruct (stats_body_ok_inv r s s1 st' E) as (_ & evs & others & _ & ->).
    cbn [computed_stats_rows eventsLast7Days oldEvents largePayloads totalEvents].
    set (c := sevenDaysAgo (now_cutoff r)).
    pose proof (count_trichotomy_by timestamp c evs).
    pose proof (count_trichotomy_by text_timestamp c others).
    pose proof (count_nonneg (fun e => timestamp e =? c) evs).
    pose proof (count_nonneg (fun e => c <? timestamp e) evs).
    pose proof (count_nonneg (fun e => timestamp e <? c) evs).
    pose proof (count_nonneg (fun e => 10000 <? LENGTH (payload e)) evs).
    pose proof (count_le_all (fun e => 10000 <? LENGTH (payload e)) evs).
    pose proof (count_nonneg (fun x => text_timestamp x =? c) others).
    pose proof (count_nonneg (fun x => c <? text_timestamp x) others).
    pose proof (count_nonneg (fun x => text_timestamp x <? c) others).
    pose proof (count_nonneg (fun x => 10000 <? characters (text_payload x)) others).
    pose proof (count_le_all (fun x => 10000 <? characters (text_payload x)) others).
    lia.
  - cbn. lia.
Qed.

(** X10. The zero snapshot is returned exactly when the [try] block
    threw, and never by a call that got its counts: such a call returns
    the snapshot computed from the rows of the events table, logs
    nothing, and its [lastCleanup] is the time of the call, never
    "Never". A failing call logs exactly one error entry. *)
Theorem zero_snapshot_exactly_on_failure (r : stats_reads) (s : state) :
  (fst (getDatabaseStats faulty r s) = Ok zero_stats
   <-> exists e s1, stats_body faulty r s = (Throw e, s1))
  /\ (forall st, fst (getDatabaseStats faulty r s) = Ok st -> st <> zero_stats ->
        console (snd (getDatabaseStats faulty r s)) = console s
        /\ lastCleanup st = Js.toISOString (now_report r)
        /\ lastCleanup st <> "Never"
        /\ exists evs others,
             table_rows (fs s !! "events.db") = Some (evs, others)
             /\ st = {| size := size_read r;
                        sizeFormatted := Js.megabytes_toFixed2 (size_read r) +:+ " MB";
                        totalEvents := select_count CountEvents evs others;
                        eventsLast7Days :=
                          select_count (CountEventsAfter (sevenDaysAgo (now_cutoff r)))
                            evs others;
                        oldEvents :=
                          select_count (CountEventsBefore (sevenDaysAgo (now_cutoff r)))
                            evs others;
                        largePayloads := select_count CountLargePayloads evs others;
                        lastCleanup := Js.toISOString (now_report r) |})
  /\ (fst (getDatabaseStats faulty r s) = Ok zero_stats ->
        exists e, console (snd (getDatabaseStats faulty r s))
                  = (console s
                       ++ [ConsoleError "[Stats] Error getting database stats:" e])%list).
Proof.
  rewrite getDatabaseStats_of_body.
  destruct (stats_body faulty r s) as [[st'|e] s1] eqn:E; cbn [fst snd].
  - destruct (stats_body_ok_inv r s s1 st' E) as (-> & evs & others & Hl & ->).
    assert (Hnz : computed_stats_rows r evs others <> zero_stats).
    { intros H. apply (f_equal lastCleanup) in H.
      exact (toISOString_not_never _ H). }
    split; [|split].
    + split.
      * intros H. exfalso. apply Hnz. congruence.
      * intros (e & s1 & H). discriminate H.
    + intros st H _. injection H as <-. split; [reflexivity|].
      split; [reflexivity|]. split; [apply toISOString_not_never|].
      exists evs, others. split; [exact Hl | reflexivity].
    + intros H. exfalso. apply Hnz. congruence.
  - split; [|split].
    + split; [intros _; exists e, s1; reflexivity | reflexivity].
    + intros st H Hne. injection H as <-. contradiction.
    + intros _. exists e. cbn [console]. f_equal.
      pose proof (stats_body_keeps_console r s) as Hc. rewrite E in Hc. exact Hc.
Qed.

End EverySnapshot.

Lemma zero_snapshot_exactly_on_failure_witness :
  console (snd (getDatabaseStats no_faults sample_stats_reads sample_state)) = []
  /\ fst (getDatabaseStats no_faults sample_stats_reads text_state)
     = Ok {| size := 4194304; sizeFormatted := "4.00 MB"; totalEvents := 6;
             eventsLast7Days := 4; oldEvents := 1; largePayloads := 3;
             lastCleanup := "2023-11-14T22:13:20.005Z" |}.
Proof.
  assert (H1 : fst (getDatabaseStats no_faults sample_stats_reads sample_state)
               = Ok {| size := 4194304; sizeFormatted := "4.00 MB"; totalEvents := 5;
                       eventsLast7Days := 3; oldEvents := 1; largePayloads := 2;
                       lastCleanup := "2023-11-14T22:13:20.005Z" |})
    by (vm_compute; reflexivity).
  destruct (zero_snapshot_exactly_on_failure no_faults sample_stats_reads sample_state)
    as (_ & H & _).
  destruct (H _ H1) as (Hc & _); [discriminate|].
  split; [exact Hc|]. vm_compute. reflexivity.
Defined.

Lemma every_snapshot_has_consistent_counts_witness :
  fst (getDatabaseStats no_faults sample_stats_reads sample_state)
  = Ok {| size := 4194304; sizeFormatted := "4.00 MB"; totalEvents := 5;
          eventsLast7Days := 3; oldEvents := 1; largePayloads := 2;
          lastCleanup := "2023-11-14T22:13:20.005Z" |}
  /\ 3 + 1 <= 5.
Proof.
  assert (H : fst (getDatabaseStats no_faults sample_stats_reads sample_state)
              = Ok {| size := 4194304; sizeFormatted := "4.00 MB"; totalEvents := 5;
                      eventsLast7Days := 3; oldEvents := 1; largePayloads := 2;
                      lastCleanup := "2023-11-14T22:13:20.005Z" |})
    by (vm_compute; reflexivity).
  split; [exact H|].
  exact (proj2 (proj2 (proj2 (every_snapshot_has_consistent_counts no_faults
                                sample_stats_reads sample_state _ H)))).
Defined.

(** ** A snapshot taken after a run *)

Lemma count_map_same {A : Type} (f : A -> bool) (g : A -> A) (l : list A) :
  (forall x, f (g x) = f x) -> count f (List.map g l) = count f l.
Proof.
  intros H. unfold count. induction l as [|x l IH]; simpl; [reflexivity|].
  rewrite H. destruct (f x); simpl List.length; lia.
Qed.

Lemma counts_after_deletion (c_run c_stats : Z) (evs : list Event) :
  c_run <= c_stats ->
  count (fun e => c_stats <? timestamp e) (delete_old_events c_run evs)
  = count (fun e => c_stats <? timestamp e) evs
  /\ count (fun e => timestamp e <? c_stats) (delete_old_events c_run evs)
     = count (fun e => timestamp e <? c_stats) evs - count (is_old c_run) evs
  /\ count (fun _ => true) (delete_old_events c_run evs)
     = count (fun _ => true) evs - count (is_old c_run) evs.
Proof.
  intros Hle. unfold count, delete_old_events, is_old.
  induction evs as [|e evs (IH1 & IH2 & IH3)]; simpl; [repeat split|].
  destruct (Z.ltb_spec (timestamp e) c_run); simpl;
    destruct (Z.ltb_spec c_stats (timestamp e));
    destruct (Z.ltb_spec (timestamp e) c_stats); simpl List.length; lia.
Qed.

Section AfterARun.

Variable faulty : op -> bool.

(** The rename goes through when the environment does not refuse it,
    [backups] is or becomes a directory and the backup path is not one. *)
Lemma rename_allowed (f : gmap string node) (d' : database) (t : Z) :
  f !! "backups" = Some Dir \/ f !! "backups" = None ->
  faulty (OpRename "events.db" (backupName t)) = false ->
  f !! backupName t <> Some Dir ->
  rename_check faulty (ensure_backups (<["events.db" := DbFile d']> f))
    "events.db" (backupName t) = None.
Proof.
  intros Hdir Hren Hdst. unfold rename_check. rewrite Hren.
  rewrite ensure_backups_other by discriminate. rewrite lookup_insert_eq.
  unfold parent_is_dir. rewrite dirname_backupName.
  rewrite ensure_backups_dir by (rewrite lookup_insert_ne by discriminate; exact Hdir).
  cbn [negb].
  rewrite (ensure_backups_other _ _ (backupName_not_dir t)).
  rewrite lookup_insert_ne
    by (intros H; symmetry in H; exact (backupName_not_live t H)).
  destruct (f !! backupName t) as [[| | |]|]; try reflexivity. congruence.
Qed.

(** X11. After a run that rotated the file, [getDatabaseStats] answers
    from the fresh file: it succeeds, every count is 0 and nothing is
    logged - yet the answer is not the failure snapshot. The rows of the
    run are no longer at the live path; the backup path holds the main
    file as it was on disk when it was renamed. *)
Theorem snapshot_after_rotation_counts_nothing
    (rc : cleanup_reads) (rs : stats_reads) (s : state) (d : database)
    (evs : list Event) (shares : list ThemeShare) :
  fs s !! "events.db" = Some (DbFile d) ->
  events d = Some evs -> theme_shares d = Some shares ->
  faulty (OpOpen "events.db") = false ->
  (forall q, faulty (OpSql "events.db" q) = false) ->
  50 * 1024 * 1024 < finalSize rc ->
  (fs s !! "backups" = Some Dir
   \/ (fs s !! "backups" = None /\ faulty (OpMkdir "backups") = false)) ->
  faulty (OpRename "events.db" (backupName (now_backup rc))) = false ->
  fs s !! backupName (now_backup rc) <> Some Dir ->
  let s' := snd (cleanupEventsDB faulty rc s) in
  exists st,
    fst (getDatabaseStats faulty rs s') = Ok st
    /\ console (snd (getDatabaseStats faulty rs s')) = console s'
    /\ totalEvents st = 0 /\ eventsLast7Days st = 0
    /\ oldEvents st = 0 /\ largePayloads st = 0
    /\ st <> zero_stats
    /\ fs s' !! "events.db" = Some (DbFile fresh_database)
    /\ fs s' !! backupName (now_backup rc)
       = Some (on_disk rc (DbFile (maintained rc d evs shares))).
Proof.
  intros Hl Hev Hsh Hop Hsql Hsize Hdir Hren Hdst s'.
  assert (Hfs : fs s' = <["events.db" := DbFile fresh_database]>
                          (<[backupName (now_backup rc) :=
                               on_disk rc (DbFile (maintained rc d evs shares))]>
                             (delete "events.db"
                                (ensure_backups
                                   (<["events.db" := DbFile (maintained rc d evs shares)]>
                                      (fs s)))))).
  { unfold s'.
    rewrite (cleanup_reaches_rotation faulty rc s d evs shares Hl Hev Hsh Hop Hsql).
    unfold try_catch, bind.
    rewrite (rotation_succeeds faulty rc
               {| fs := <["events.db" := DbFile (maintained rc d evs shares)]> (fs s);
                  console := console s ++ maintenance_log rc evs shares |}
               (maintained rc d evs shares) Hsize).
    - reflexivity.
    - apply lookup_insert_eq.
    - cbn [fs]. rewrite lookup_insert_ne by discriminate.
      intros Hn. destruct Hdir as [H|[_ H]]; [congruence | exact H].
    - cbn [fs]. apply rename_allowed; [|exact Hren | exact Hdst].
      destruct Hdir as [H|[H _]]; [left | right]; exact H.
    - exact Hop.
    - exact Hsql. }
  assert (Hlive : fs s' !! "events.db" = Some (DbFile fresh_database))
    by (rewrite Hfs; apply lookup_insert_eq).
  exists (computed_stats rs []).
  rewrite getDatabaseStats_of_body.
  rewrite (stats_body_succeeds faulty rs s' fresh_database [] Hlive eq_refl Hop Hsql).
  split; [|split; [|split; [|split; [|split; [|split; [|split; [|split]]]]]]];
    try reflexivity.
  - apply computed_stats_not_zero.
  - exact Hlive.
  - rewrite Hfs.
    rewrite lookup_insert_ne
      by (intros H; symmetry in H; exact (backupName_not_live _ H)).
    apply lookup_insert_eq.
Qed.

(** X12. A run that does not rotate never removes an event that a later
    snapshot counts as recent: with the clock of the snapshot at or
    after the clock of step 1, [eventsLast7Days] is the same before and
    after the run, while [totalEvents] and [oldEvents] both drop by
    exactly the number of events the run deleted; read at the very same
    clock value, [oldEvents] is 0 after the run. *)
Theorem run_without_rotation_keeps_recent_events
    (rc : cleanup_reads) (rs : stats_reads) (s : state) (d : database)
    (evs : list Event) (shares : list ThemeShare) :
  fs s !! "events.db" = Some (DbFile d) ->
  events d = Some evs -> theme_shares d = Some shares ->
  faulty (OpOpen "events.db") = false ->
  (forall q, faulty (OpSql "events.db" q) = false) ->
  finalSize rc <= 50 * 1024 * 1024 ->
  now_retention rc <= now_cutoff rs ->
  let s' := snd (cleanupEventsDB faulty rc s) in
  let deleted := count (is_old (sevenDaysAgo (now_retention rc))) evs in
  exists st st',
    getDatabaseStats faulty rs s = (Ok st, s)
    /\ getDatabaseStats faulty rs s' = (Ok st', s')
    /\ eventsLast7Days st' = eventsLast7Days st
    /\ totalEvents st' = totalEvents st - deleted
    /\ oldEvents st' = oldEvents st - deleted
    /\ (now_retention rc = now_cutoff rs -> oldEvents st' = 0).
Proof.
  intros Hl Hev Hsh Hop Hsql Hsize Hclock s' deleted.
  assert (Hlive : fs s' !! "events.db" = Some (DbFile (maintained rc d evs shares))).
  { unfold s'.
    rewrite (cleanup_reaches_rotation faulty rc s d evs shares Hl Hev Hsh Hop Hsql).
    unfold try_catch, bind. rewrite (rotation_skipped faulty rc _ Hsize).
    cbn [snd fs console_log]. apply lookup_insert_eq. }
  exists (computed_stats rs evs).
  exists (computed_stats rs
            (truncate_large_payloads (oneDayAgo (now_truncation rc))
               (delete_old_events (sevenDaysAgo (now_retention rc)) evs))).
  assert (Hc : sevenDaysAgo (now_retention rc) <= sevenDaysAgo (now_cutoff rs))
    by (unfold sevenDaysAgo; lia).
  destruct (counts_after_deletion _ _ evs Hc) as (C1 & C2 & C3).
  split; [|split; [|split; [|split; [|split]]]].
  - rewrite getDatabaseStats_of_body.
    rewrite (stats_body_succeeds faulty rs s d evs Hl Hev Hop Hsql). reflexivity.
  - rewrite getDatabaseStats_of_body.
    rewrite (stats_body_succeeds faulty rs s' (maintained rc d evs shares) _
               Hlive eq_refl Hop Hsql).
    reflexivity.
  - cbn [computed_stats eventsLast7Days]. unfold truncate_large_payloads.
    rewrite count_map_same by (intros e; rewrite truncate_event_timestamp; reflexivity).
    exact C1.
  - cbn [computed_stats totalEvents]. unfold truncate_large_payloads.
    rewrite count_map_same by reflexivity. exact C3.
  - cbn [computed_stats oldEvents]. unfold truncate_large_payloads.
    rewrite count_map_same by (intros e; rewrite truncate_event_timestamp; reflexivity).
    exact C2.
  - intros Heq. cbn [computed_stats oldEvents]. unfold truncate_large_payloads.
    rewrite count_map_same by (intros e; rewrite truncate_event_timestamp; reflexivity).
    rewrite C2, <- Heq. unfold is_old. lia.
Qed.

End AfterARun.

Lemma snapshot_after_rotation_counts_nothing_witness :
  exists st,
    fst (getDatabaseStats no_faults sample_stats_reads
           (snd (cleanupEventsDB no_faults large_reads sample_state))) = Ok st
    /\ totalEvents st = 0.
Proof.
  destruct (snapshot_after_rotation_counts_nothing no_faults large_reads
              sample_stats_reads sample_state sample_db sample_events sample_shares)
    as (st & H1 & _ & H2 & _); try reflexivity.
  - right. split; reflexivity.
  - vm_compute. discriminate.
  - exists st. split; [exact H1 | exact H2].
Defined.

Lemma run_without_rotation_keeps_recent_events_witness :
  exists st st',
    getDatabaseStats no_faults sample_stats_reads sample_state = (Ok st, sample_state)
    /\ fst (getDatabaseStats no_faults sample_stats_reads
              (snd (cleanupEventsDB no_faults small_reads sample_state))) = Ok st'
    /\ eventsLast7Days st' = eventsLast7Days st
    /\ oldEvents st' = 0.
Proof.
  destruct (run_without_rotation_keeps_recent_events no_faults small_reads
              sample_stats_reads sample_state sample_db sample_events sample_shares)
    as (st & st' & H1 & H2 & H3 & _ & _ & H6); try reflexivity.
  exists st, st'. split; [exact H1|]. split; [rewrite H2; reflexivity|].
  split; [exact H3 | apply H6; reflexivity].
Defined.

(** ** The schema statements on a database of the canonical shape *)

Lemma exec_create_index (d : database) (i : Index) :
  has_table d (index_table i) = true ->
  exec_stmt (CreateIndex i) d = inr (0, set_indexes d (add_index i (indexes d))).
Proof.
  intros H. cbn [exec_stmt]. rewrite H. unfold has_index, add_index.
  destruct (existsb _ (indexes d)); [|reflexivity].
  destruct d; reflexivity.
Qed.

Lemma In_add_index (i j : Index) (l : list Index) :
  In j l -> In j (add_index i l).
Proof.
  intros H. unfold add_index. destruct (existsb _ l); [exact H|].
  apply in_or_app. left. exact H.
Qed.

Lemma named_add_index_same (i : Index) (l : list Index) :
  existsb (fun j => String.eqb (index_name j) (index_name i)) (add_index i l) = true.
Proof.
  unfold add_index.
  destruct (existsb _ l) eqn:E; [exact E|].
  rewrite existsb_app. simpl. rewrite String.eqb_refl, orb_true_r. reflexivity.
Qed.

Lemma named_add_index_other (f : Index -> bool) (i : Index) (l : list Index) :
  existsb f l = true -> existsb f (add_index i l) = true.
Proof.
  intros H. unfold add_index.
  destruct (existsb (fun j => String.eqb (index_name j) (index_name i)) l);
    [exact H|].
  rewrite existsb_app, H. reflexivity.
Qed.

Lemma add_index_present (i : Index) (l : list Index) :
  existsb (fun j => String.eqb (index_name j) (index_name i)) l = true ->
  add_index i l = l.
Proof. intros H. unfold add_index. rewrite H. reflexivity. Qed.

Lemma fold_add_index_present (new l : list Index) :
  (forall i, In i new ->
     existsb (fun j => String.eqb (index_name j) (index_name i)) l = true) ->
  fold_left (fun l i => add_index i l) new l = l.
Proof.
  induction new as [|a new IH]; intros H; [reflexivity|].
  cbn [fold_left]. rewrite add_index_present by (apply H; left; reflexivity).
  apply IH. intros i Hi. apply H. right. exact Hi.
Qed.

Lemma exec_stmts_cons (q : stmt) (l : list stmt) (d d1 : database) (n : Z) :
  exec_stmt q d = inr (n, d1) -> exec_stmts (q :: l) d = exec_stmts l d1.
Proof. intros H. cbn [exec_stmts]. rewrite H. reflexivity. Qed.

Ltac index_named :=
  repeat first [ apply named_add_index_same | apply named_add_index_other ].

(** The schema statements, run on a database of the canonical shape. *)
Lemma schema_statements_run (d : database) :
  exec_stmts schema_statements d
  = inr {| journal_wal := true;
           events := Some (rows_or_empty (events d));
           themes := Some (rows_or_empty (themes d));
           theme_shares := Some (rows_or_empty (theme_shares d));
           theme_ratings := Some (rows_or_empty (theme_ratings d));
           indexes := fold_left (fun l i => add_index i l)
                        (indexes fresh_database) (indexes d) |}.
Proof.
  destruct d as [w ev th sh ra ix]. unfold schema_statements.
  do 6 (erewrite exec_stmts_cons by reflexivity).
  cbn [set_wal create_table journal_wal events themes theme_shares theme_ratings indexes].
  assert (K : forall (A : Type) (o : option (list A)),
             match o with Some rows => Some rows | None => Some [] end
             = Some (rows_or_empty o))
    by (intros A [rows|]; reflexivity).
  rewrite !K.
  repeat (erewrite exec_stmts_cons by (apply exec_create_index; reflexivity);
          cbn [set_indexes indexes journal_wal events themes theme_shares
               theme_ratings]).
  reflexivity.
Qed.

(** X13. The schema statements can run on any database of the canonical
    shape (each of the four table names, where it exists, is a table
    with the declared columns, and each of the nine index names, where
    it exists, is an index), not only on the empty file of a rotation:
    all fifteen succeed, no row and no index is lost, the four tables
    and the nine index names exist afterwards, the file is in WAL mode,
    and running the statements a second time changes nothing. *)
Theorem schema_statements_keep_rows_and_repeat (d : database) :
  exists d',
    exec_stmts schema_statements d = inr d'
    /\ journal_wal d' = true
    /\ events d' = Some (rows_or_empty (events d))
    /\ themes d' = Some (rows_or_empty (themes d))
    /\ theme_shares d' = Some (rows_or_empty (theme_shares d))
    /\ theme_ratings d' = Some (rows_or_empty (theme_ratings d))
    /\ (forall i, In i (indexes d) -> In i (indexes d'))
    /\ (forall i, In i (indexes fresh_database) -> has_index d' (index_name i) = true)
    /\ exec_stmts schema_statements d' = inr d'.
Proof.
  eexists. split; [apply schema_statements_run|].
  cbn [journal_wal events themes theme_shares theme_ratings indexes].
  do 5 (split; [reflexivity|]).
  assert (Hnamed : forall i, In i (indexes fresh_database) ->
            existsb (fun j => String.eqb (index_name j) (index_name i))
              (fold_left (fun l i => add_index i l) (indexes fresh_database) (indexes d))
            = true).
  { intros i Hi. cbn [fresh_database indexes In fold_left] in *.
    repeat (destruct Hi as [<-|Hi]; [index_named|]). contradiction. }
  split; [|split].
  - intros i Hi. cbn [fresh_database indexes fold_left].
    repeat apply In_add_index. exact Hi.
  - intros i Hi. unfold has_index. cbn [indexes]. apply Hnamed. exact Hi.
  - rewrite schema_statements_run.
    cbn [journal_wal events themes theme_shares theme_ratings indexes rows_or_empty].
    f_equal. f_equal.
    apply fold_add_index_present. exact Hnamed.
Qed.

(** ** What a run leaves in the live file *)

Section RunResults.

Variable faulty : op -> bool.


(** X15. When the backup directory is missing and cannot be created, the
    rotation stops before the rename: the live file keeps what steps 1
    to 6 produced, neither the directory nor a backup appears, and the
    console ends with the error of the directory creation. *)
Theorem failed_directory_creation_keeps_live_file
    (r : cleanup_reads) (s : state) (d : database)
    (evs : list Event) (shares : list ThemeShare) :
  fs s !! "events.db" = Some (DbFile d) ->
  events d = Some evs -> theme_shares d = Some shares ->
  faulty (OpOpen "events.db") = false ->
  (forall q, faulty (OpSql "events.db" q) = false) ->
  50 * 1024 * 1024 < finalSize r ->
  fs s !! "backups" = None ->
  faulty (OpMkdir "backups") = true ->
  cleanupEventsDB faulty r s
  = (Ok tt,
     {| fs := <["events.db" := DbFile (maintained r d evs shares)]> (fs s);
        console :=
          (console s ++ maintenance_log r evs shares
             ++ [ ConsoleLog "[Cleanup] Database still large, creating backup...";
                  ConsoleError "[Cleanup] Error during cleanup:"
                    (Fault (OpMkdir "backups")) ])%list |}).
Proof.
  intros Hl Hev Hsh Hop Hsql Hsize Hnone Hmk.
  rewrite (cleanup_reaches_rotation faulty r s d evs shares Hl Hev Hsh Hop Hsql).
  unfold try_catch, backup_rotation. apply Z.ltb_lt in Hsize. rewrite Hsize.
  unfold bind, console_log, existsSync, mkdirSync, console_error. cbn [fs console].
  rewrite lookup_insert_ne by discriminate. rewrite Hnone.
  rewrite bool_decide_eq_false_2 by (intros [x Hx]; discriminate).
  cbn [negb fs console]. rewrite Hmk. cbn [fs console].
  rewrite <- !app_assoc. reflexivity.
Qed.

End RunResults.


Lemma failed_directory_creation_keeps_live_file_witness :
  fs (snd (cleanupEventsDB mkdir_refused large_reads sample_state)) !! "backups" = None
  /\ fs (snd (cleanupEventsDB mkdir_refused large_reads sample_state)) !! "events.db"
     = Some (DbFile (maintained large_reads sample_db sample_events sample_shares)).
Proof.
  rewrite (failed_directory_creation_keeps_live_file mkdir_refused large_reads
             sample_state sample_db sample_events sample_shares); try reflexivity.
  split; reflexivity.
Defined.

(** ** After the rename *)

Lemma ddl_keeps_no_rows (q : stmt) (d d' : database) (n : Z) :
  is_ddl q = true -> no_rows d -> exec_stmt q d = inr (n, d') -> no_rows d'.
Proof.
  intros Hq (H1 & H2 & H3 & H4) He. destruct q; try discriminate Hq; cbn [exec_stmt] in He.
  - injection He as _ <-. repeat split; assumption.
  - injection He as _ <-. repeat split; assumption.
  - injection He as _ <-. unfold no_rows.
    destruct t; cbn [create_table events themes theme_shares theme_ratings];
      repeat split; try assumption.
    + destruct (events d); [exact H1 | reflexivity].
    + destruct (themes d); [exact H2 | reflexivity].
    + destruct (theme_shares d); [exact H3 | reflexivity].
    + destruct (theme_ratings d); [exact H4 | reflexivity].
  - destruct (has_table d (index_table i)); [|discriminate He].
    injection He as _ <-. destruct (has_index d (index_name i));
      repeat split; assumption.
Qed.

Section AfterRename.

Variable faulty : op -> bool.

(** The reinitialisation, whichever of its statements fail, leaves at the
    path a database without rows and touches nothing else. *)
Lemma exec_all_ddl (p : string) (l : list stmt) (s : state) (d0 : database) :
  forallb is_ddl l = true ->
  fs s !! p = Some (DbFile d0) -> no_rows d0 ->
  exists o d1,
    exec_all faulty p l s = (o, set_fs s (<[p := DbFile d1]> (fs s)))
    /\ no_rows d1.
Proof.
  revert s d0. induction l as [|q l IH]; intros s d0 Hall Hl Hn.
  - exists (Ok tt), d0. split; [|exact Hn]. cbn [exec_all]. unfold ret.
    rewrite (insert_id _ _ _ Hl), set_fs_same. reflexivity.
  - cbn [forallb] in Hall. apply andb_true_iff in Hall. destruct Hall as [Hq Hall].
    cbn [exec_all]. unfold bind, exec.
    assert (Hsame : set_fs s (<[p := DbFile d0]> (fs s)) = s)
      by (rewrite (insert_id _ _ _ Hl); apply set_fs_same).
    destruct (faulty (OpSql p q)).
    { exists (Throw (Fault (OpSql p q))), d0. rewrite Hsame. split; [reflexivity | exact Hn]. }
    rewrite Hl. destruct (exec_stmt q d0) as [e|[n d1]] eqn:He.
    { exists (Throw e), d0. rewrite Hsame. split; [reflexivity | exact Hn]. }
    pose proof (ddl_keeps_no_rows q d0 d1 n Hq Hn He) as Hn1.
    destruct (IH (set_fs s (<[p := DbFile d1]> (fs s))) d1 Hall) as (o & d2 & E & Hn2);
      [cbn [fs set_fs]; apply lookup_insert_eq | exact Hn1 |].
    exists o, d2. rewrite E. cbn [fs set_fs console]. rewrite insert_insert_eq.
    split; [reflexivity | exact Hn2].
Qed.

(** Steps 1 to 6 when only their own statements are known not to fail. *)
Lemma cleanup_reaches_rotation_whatever_follows
    (r : cleanup_reads) (s : state) (d : database)
    (evs : list Event) (shares : list ThemeShare) :
  fs s !! "events.db" = Some (DbFile d) ->
  events d = Some evs -> theme_shares d = Some shares ->
  faulty (OpOpen "events.db") = false ->
  (forall q, In q (maintenance_statements r) -> faulty (OpSql "events.db" q) = false) ->
  cleanupEventsDB faulty r s
  = try_catch
      (backup_rotation faulty r ;;
       console_log "[Cleanup] Database cleanup completed successfully")%run
      (fun error => console_error "[Cleanup] Error during cleanup:" error)
      {| fs := <["events.db" := DbFile (maintained r d evs shares)]> (fs s);
         console := console s ++ maintenance_log r evs shares |}.
Proof.
  intros Hl Hev Hsh Hop Hsql.
  assert (H1 := Hsql PragmaJournalModeWal ltac:(simpl; tauto)).
  assert (H2 := Hsql (DeleteOldEvents (sevenDaysAgo (now_retention r))) ltac:(simpl; tauto)).
  assert (H3 := Hsql (TruncateLargePayloads (oneDayAgo (now_truncation r)))
                  ltac:(simpl; tauto)).
  assert (H4 := Hsql (DeleteExpiredShares (now_expiry r)) ltac:(simpl; tauto)).
  assert (H5 := Hsql Vacuum ltac:(simpl; tauto)).
  assert (H6 := Hsql Reindex ltac:(simpl; tauto)).
  assert (H7 := Hsql Analyze ltac:(simpl; tauto)).
  unfold cleanupEventsDB, try_catch, cleanup_body, bind, open_database, exec,
    close, ret, console_log, set_fs.
  cbn [fs console]. rewrite Hop, Hl.
  repeat (rewrite ?H1, ?H2, ?H3, ?H4, ?H5, ?H6, ?H7, ?Hl, ?lookup_insert_eq;
          cbn [fs console exec_stmt set_wal events theme_shares set_events set_shares];
          rewrite ?Hev, ?Hsh).
  rewrite !insert_insert_eq.
  unfold maintenance_log. rewrite <- !app_assoc. reflexivity.
Qed.

(** The rotation from the rename on, whichever statements of the
    reinitialisation fail. *)
Lemma rotation_after_rename (r : cleanup_reads) (s : state) (d' : database) :
  50 * 1024 * 1024 < finalSize r ->
  fs s !! "events.db" = Some (DbFile d') ->
  (fs s !! "backups" = None -> faulty (OpMkdir "backups") = false) ->
  rename_check faulty (ensure_backups (fs s)) "events.db" (backupName (now_backup r))
    = None ->
  faulty (OpOpen "events.db") = false ->
  exists o d1 c,
    backup_rotation faulty r s
    = (o, {| fs := <["events.db" := DbFile d1]>
                     (<[backupName (now_backup r) := on_disk r (DbFile d')]>
                        (delete "events.db" (ensure_backups (fs s))));
             console := c |})
    /\ no_rows d1.
Proof.
  intros Hsize Hl Hmk Hchk Hop. unfold backup_rotation.
  apply Z.ltb_lt in Hsize. rewrite Hsize.
  assert (Hl2 : ensure_backups (fs s) !! "events.db" = Some (DbFile d')).
  { rewrite ensure_backups_other by discriminate. exact Hl. }
  assert (Hgone : <[backupName (now_backup r) := on_disk r (DbFile d')]>
                    (delete "events.db" (ensure_backups (fs s))) !! "events.db" = None).
  { rewrite lookup_insert_ne by apply backupName_not_live. apply lookup_delete_eq. }
  unfold bind at 1. cbn [console_log].
  unfold bind at 1. unfold existsSync at 1. cbn [fs console].
  unfold bind at 1. rewrite (backups_ensured faulty _ _ Hmk).
  unfold bind at 1. unfold renameSync at 1. cbn [fs console]. rewrite Hchk, Hl2.
  unfold set_fs at 1. cbn [fs console].
  unfold bind at 1. cbn [console_log fs console].
  unfold bind at 1. unfold open_database at 1. cbn [fs console].
  rewrite Hop, Hgone. unfold set_fs at 1. cbn [fs console].
  unfold bind at 1.
  match goal with
  | |- context [exec_all faulty "events.db" schema_statements ?st] =>
      destruct (exec_all_ddl "events.db" schema_statements st empty_database)
        as (o & d1 & E & Hn1);
      [ reflexivity | cbn [fs]; apply lookup_insert_eq | repeat split | ]
  end.
  rewrite E. unfold set_fs. cbn [fs console]. rewrite insert_insert_eq.
  destruct o as [[]|e]; unfold bind, close, ret, console_log; cbn [fs console];
    do 3 eexists; (split; [reflexivity | exact Hn1]).
Qed.

(** X16. Once the rename of step 7 has gone through, the old rows are
    gone from the live path whatever happens next: if statements of the
    reinitialisation fail - any of them but its first PRAGMA, which like
    the re-open is a request that the run already made, successfully,
    at its start - the run still returns normally, the backup path holds
    the renamed main file, and the live path holds a new database
    without a single row (possibly with part of the schema only) -
    never the old rows, and never nothing. *)
Theorem after_rename_failures_leave_empty_live_file
    (r : cleanup_reads) (s : state) (d : database)
    (evs : list Event) (shares : list ThemeShare) :
  fs s !! "events.db" = Some (DbFile d) ->
  events d = Some evs -> theme_shares d = Some shares ->
  faulty (OpOpen "events.db") = false ->
  (forall q, In q (maintenance_statements r) -> faulty (OpSql "events.db" q) = false) ->
  50 * 1024 * 1024 < finalSize r ->
  (fs s !! "backups" = Some Dir
   \/ (fs s !! "backups" = None /\ faulty (OpMkdir "backups") = false)) ->
  faulty (OpRename "events.db" (backupName (now_backup r))) = false ->
  fs s !! backupName (now_backup r) <> Some Dir ->
  let s' := snd (cleanupEventsDB faulty r s) in
  fst (cleanupEventsDB faulty r s) = Ok tt
  /\ fs s' !! backupName (now_backup r)
     = Some (on_disk r (DbFile (maintained r d evs shares)))
  /\ exists d1, fs s' !! "events.db" = Some (DbFile d1) /\ no_rows d1.
Proof.
  intros Hl Hev Hsh Hop Hsql Hsize Hdir Hren Hdst s'.
  split; [apply cleanup_never_throws|].
  unfold s'. clear s'.
  rewrite (cleanup_reaches_rotation_whatever_follows r s d evs shares Hl Hev Hsh Hop Hsql).
  set (d' := maintained r d evs shares).
  destruct (rotation_after_rename r
              {| fs := <["events.db" := DbFile d']> (fs s);
                 console := console s ++ maintenance_log r evs shares |} d' Hsize)
    as (o & d1 & c & E & Hn1).
  - apply lookup_insert_eq.
  - cbn [fs]. rewrite lookup_insert_ne by discriminate.
    intros Hn. destruct Hdir as [H|[_ H]]; [congruence | exact H].
  - cbn [fs]. apply rename_allowed; [|exact Hren | exact Hdst].
    destruct Hdir as [H|[H _]]; [left | right]; exact H.
  - exact Hop.
  - unfold try_catch, bind. rewrite E.
    destruct o as [[]|e]; unfold console_log, console_error; cbn [snd fs console].
    + split.
      * rewrite lookup_insert_ne
          by (intros H; symmetry in H; exact (backupName_not_live _ H)).
        apply lookup_insert_eq.
      * exists d1. split; [apply lookup_insert_eq | exact Hn1].
    + split.
      * rewrite lookup_insert_ne
          by (intros H; symmetry in H; exact (backupName_not_live _ H)).
        apply lookup_insert_eq.
      * exists d1. split; [apply lookup_insert_eq | exact Hn1].
Qed.

End AfterRename.

Lemma after_rename_failures_leave_empty_live_file_witness :
  fs (snd (cleanupEventsDB ratings_table_refused large_reads sample_state))
    !! backupName (now_backup large_reads)
  = Some (DbFile sample_db)
  /\ exists d1,
       fs (snd (cleanupEventsDB ratings_table_refused large_reads sample_state))
         !! "events.db" = Some (DbFile d1)
       /\ no_rows d1.
Proof.
  destruct (after_rename_failures_leave_empty_live_file ratings_table_refused
              large_reads sample_state sample_db sample_events sample_shares)
    as (_ & H); try reflexivity.
  - intros q Hq. simpl in Hq.
    repeat (destruct Hq as [<-|Hq]; [reflexivity|]). contradiction.
  - right. split; reflexivity.
  - vm_compute. discriminate.
  - exact H.
Defined.

(** ** Large payloads after the truncation *)

(** X17. After the truncation statement, a row whose payload is still
    longer than 10,000 is either at or after the cutoff (too recent to
    be touched) or carries a marker, recognisable by its [truncated]
    member being SQL true and its [original_size] member being an
    integer above 10,000: no old large payload survives unmarked. *)
Theorem old_large_payloads_are_markers_afterwards
    (cutoff : Z) (evs : list Event) (e' : Event) :
  In e' (truncate_large_payloads cutoff evs) ->
  10000 < LENGTH (payload e') ->
  cutoff <= timestamp e'
  \/ (json_extract (payload e') "truncated" = sql_true
      /\ exists n, json_extract (payload e') "original_size" = SqlInt n /\ 10000 < n).
Proof.
  unfold truncate_large_payloads. rewrite in_map_iff.
  intros (e & <- & _) Hlen.
  destruct (truncation_applies cutoff e) eqn:Ha.
  - right. rewrite (truncate_event_marks _ _ Ha). cbn [payload set_payload].
    split; [reflexivity|]. exists (LENGTH (payload e)). split; [reflexivity|].
    apply truncation_applies_spec in Ha. tauto.
  - left. rewrite (truncate_event_skips _ _ Ha) in *.
    unfold truncation_applies in Ha. apply andb_false_iff in Ha.
    destruct Ha as [Ha|Ha]; [apply Z.ltb_ge in Ha; lia | apply Z.ltb_ge in Ha; exact Ha].
Qed.

Lemma old_large_payloads_are_markers_afterwards_witness :
  sample_now - 1000 >= oneDayAgo sample_now
  /\ In (sample_event 4 long_text (sample_now - 1000))
       (truncate_large_payloads (oneDayAgo sample_now) sample_events).
Proof.
  assert (Hin : In (sample_event 4 long_text (sample_now - 1000))
                  (truncate_large_payloads (oneDayAgo sample_now) sample_events)).
  { right; right; right; left. vm_compute. reflexivity. }
  split; [|exact Hin].
  destruct (old_large_payloads_are_markers_afterwards (oneDayAgo sample_now)
              sample_events _ Hin) as [H|[H _]].
  - vm_compute. reflexivity.
  - cbn [timestamp sample_event] in H. lia.
  - vm_compute in H. discriminate H.
Defined.

(** ** The data statements, on the file and in a run *)




Lemma kept_events_filter (cutoff : Z) (evs : list Event) :
  delete_old_events cutoff evs = List.filter (fun e => cutoff <=? timestamp e) evs.
Proof.
  unfold delete_old_events. apply filter_ext_bool.
  intros e. unfold is_old. rewrite Z.leb_antisym. reflexivity.
Qed.

Lemma kept_shares_filter (now : Z) (shares : list ThemeShare) :
  delete_expired_shares now shares
  = List.filter (fun x => match expiresAt x with
                          | Some t => now <=? t
                          | None => true
                          end) shares.
Proof.
  unfold delete_expired_shares. apply filter_ext_bool.
  intros x. unfold share_expired. destruct (expiresAt x) as [t|]; [|reflexivity].
  rewrite Z.leb_antisym. reflexivity.
Qed.

Lemma truncate_large_payloads_ids (c : Z) (evs : list Event) :
  List.map id (truncate_large_payloads c evs) = List.map id evs.
Proof.
  unfold truncate_large_payloads. rewrite List.map_map.
  apply List.map_ext. apply truncate_event_id.
Qed.

Lemma truncate_large_payloads_timestamps (c : Z) (evs : list Event) :
  List.map timestamp (truncate_large_payloads c evs) = List.map timestamp evs.
Proof.
  unfold truncate_large_payloads. rewrite List.map_map.
  apply List.map_ext. apply truncate_event_timestamp.
Qed.

Section DataStatements.

Variable faulty : op -> bool.

(** A statement that succeeds on the database of a file, run on the file. *)
Lemma exec_on_file (p : string) (q : stmt) (s : state) (d d' : database) (n : Z) :
  fs s !! p = Some (DbFile d) -> faulty (OpSql p q) = false ->
  exec_stmt q d = inr (n, d') ->
  exec faulty p q s
  = (Ok n, {| fs := <[p := DbFile d']> (fs s); console := console s |}).
Proof.
  intros Hl Hf He. unfold exec. rewrite Hf, Hl, He. reflexivity.
Qed.

(** The live file after a run that gets through steps 1 to 6 and does not
    rotate. *)
Lemma run_without_rotation_file (r : cleanup_reads) (s : state) (d : database)
    (evs : list Event) (shares : list ThemeShare) :
  fs s !! "events.db" = Some (DbFile d) ->
  events d = Some evs -> theme_shares d = Some shares ->
  faulty (OpOpen "events.db") = false ->
  (forall q, faulty (OpSql "events.db" q) = false) ->
  finalSize r <= 50 * 1024 * 1024 ->
  fs (snd (cleanupEventsDB faulty r s)) !! "events.db"
  = Some (DbFile (maintained r d evs shares)).
Proof.
  intros Hl Hev Hsh Hop Hsql Hsize.
  rewrite (cleanup_reaches_rotation faulty r s d evs shares Hl Hev Hsh Hop Hsql).
  unfold try_catch, bind. rewrite (rotation_skipped faulty r _ Hsize).
  cbn [snd fs console_log]. apply lookup_insert_eq.
Qed.

(** C2. The age-retention statement, run at time [now] on a database whose
    events table holds [evs], succeeds and reports the number of rows
    with a timestamp strictly below [now] minus seven days; the events
    table afterwards holds exactly the rows at or after that cutoff, each
    the very same record, in their order, and every other table, the
    indexes and the journal mode are as before.  This is what the
    statement does to the live file (where rows whose payload is not
    JSON are removed or kept by the same cutoff), and in a run of
    [cleanupEventsDB] whose step 1 reads the clock [now] the rows of the
    live file afterwards are, by id and timestamp, exactly those kept
    rows. *)
Theorem age_retention_removes_exactly_old (d : database) (evs : list Event) (now : Z) :
  events d = Some evs ->
  let cutoff := now - 7 * 24 * 60 * 60 * 1000 in
  let kept := List.filter (fun e => cutoff <=? timestamp e) evs in
  let removed := count (fun e => timestamp e <? cutoff) evs in
  exists d',
    exec_stmt (DeleteOldEvents (sevenDaysAgo now)) d = inr (removed, d')
    /\ events d' = Some kept
    /\ themes d' = themes d /\ theme_shares d' = theme_shares d
    /\ theme_ratings d' = theme_ratings d /\ indexes d' = indexes d
    /\ journal_wal d' = journal_wal d
    /\ (forall e, In e kept <-> In e evs /\ cutoff <= timestamp e)
    /\ (forall e, In e evs -> timestamp e < cutoff -> ~ In e kept)
    /\ removed + Z.of_nat (List.length kept) = Z.of_nat (List.length evs)
    /\ (forall s, fs s !! "events.db" = Some (DbFile d) ->
          faulty (OpSql "events.db" (DeleteOldEvents (sevenDaysAgo now))) = false ->
          exec faulty "events.db" (DeleteOldEvents (sevenDaysAgo now)) s
          = (Ok removed,
             {| fs := <["events.db" := DbFile d']> (fs s); console := console s |}))
    /\ (forall s others, fs s !! "events.db" = Some (TextDbFile d others) ->
          faulty (OpSql "events.db" (DeleteOldEvents (sevenDaysAgo now))) = false ->
          exec faulty "events.db" (DeleteOldEvents (sevenDaysAgo now)) s
          = (Ok (removed + count (fun x => text_timestamp x <? cutoff) others),
             {| fs := <["events.db" :=
                         TextDbFile d'
                           (List.filter (fun x => cutoff <=? text_timestamp x) others)]>
                        (fs s);
                console := console s |}))
    /\ (forall r s shares,
          now_retention r = now ->
          fs s !! "events.db" = Some (DbFile d) -> theme_shares d = Some shares ->
          faulty (OpOpen "events.db") = false ->
          (forall q, faulty (OpSql "events.db" q) = false) ->
          finalSize r <= 50 * 1024 * 1024 ->
          exists d2 evs2,
            fs (snd (cleanupEventsDB faulty r s)) !! "events.db" = Some (DbFile d2)
            /\ events d2 = Some evs2
            /\ List.map id evs2 = List.map id kept
            /\ List.map timestamp evs2 = List.map timestamp kept).
Proof.
  intros Hev cutoff kept removed.
  assert (Hc : sevenDaysAgo now = cutoff) by reflexivity.
  assert (Hk : delete_old_events cutoff evs = kept) by apply kept_events_filter.
  assert (Hx : exec_stmt (DeleteOldEvents (sevenDaysAgo now)) d
               = inr (removed, set_events d kept)).
  { cbn [exec_stmt]. rewrite Hev, Hc, Hk. reflexivity. }
  exists (set_events d kept).
  split; [exact Hx|]. split; [reflexivity|].
  do 5 (split; [reflexivity|]).
  split; [|split; [|split; [|split; [|split]]]].
  - intros e. rewrite <- Hk. apply delete_old_events_In.
  - intros e _ Hlt Hin. rewrite <- Hk in Hin.
    apply delete_old_events_In in Hin. lia.
  - rewrite <- Hk. apply (count_filter_negb (is_old cutoff)).
  - intros s Hl Hf. apply (exec_on_file _ _ s d _ _ Hl Hf Hx).
  - intros s others Hl Hf. unfold exec. rewrite Hf, Hl. unfold exec_stmt_text.
    rewrite Hx, Hc.
    rewrite (filter_ext_bool (fun x => negb (text_timestamp x <? cutoff))
               (fun x => cutoff <=? text_timestamp x) others)
      by (intros x; rewrite Z.leb_antisym; reflexivity).
    reflexivity.
  - intros r s shares Hnow Hl Hsh Hop Hsql Hsize.
    exists (maintained r d evs shares).
    eexists. split; [|split; [reflexivity|]].
    + apply (run_without_rotation_file r s d evs shares Hl Hev Hsh Hop Hsql Hsize).
    + rewrite Hnow, Hc, Hk.
      split; [apply truncate_large_payloads_ids
             | apply truncate_large_payloads_timestamps].
Qed.

(** C5. The share-expiry statement, run at time [now] on a database whose
    theme_shares table holds [shares], succeeds and reports the number
    of shares whose expiry is set and strictly below [now]; the table
    afterwards holds exactly the shares whose expiry is null or at or
    after [now], each the very same record (so with its access counter),
    in their order, and every other table, the indexes and the journal
    mode are as before.  This is what the statement does to the live
    file, and after a run of [cleanupEventsDB] whose step 3 reads the
    clock [now] the live file holds exactly those shares. *)
Theorem share_expiry_removes_exactly_expired
    (d : database) (shares : list ThemeShare) (now : Z) :
  theme_shares d = Some shares ->
  let kept := List.filter (fun x => match expiresAt x with
                                    | Some t => now <=? t
                                    | None => true
                                    end) shares in
  let removed := count (fun x => match expiresAt x with
                                 | Some t => t <? now
                                 | None => false
                                 end) shares in
  exists d',
    exec_stmt (DeleteExpiredShares now) d = inr (removed, d')
    /\ theme_shares d' = Some kept
    /\ events d' = events d /\ themes d' = themes d
    /\ theme_ratings d' = theme_ratings d /\ indexes d' = indexes d
    /\ journal_wal d' = journal_wal d
    /\ (forall x, In x kept <->
          In x shares /\ (expiresAt x = None \/ exists t, expiresAt x = Some t /\ now <= t))
    /\ (forall x t, In x shares -> expiresAt x = Some t -> t < now -> ~ In x kept)
    /\ (forall x, In x shares -> expiresAt x = None -> In x kept)
    /\ (forall x t, In x shares -> expiresAt x = Some t -> now <= t -> In x kept)
    /\ removed + Z.of_nat (List.length kept) = Z.of_nat (List.length shares)
    /\ (forall s, fs s !! "events.db" = Some (DbFile d) ->
          faulty (OpSql "events.db" (DeleteExpiredShares now)) = false ->
          exec faulty "events.db" (DeleteExpiredShares now) s
          = (Ok removed,
             {| fs := <["events.db" := DbFile d']> (fs s); console := console s |}))
    /\ (forall s others, fs s !! "events.db" = Some (TextDbFile d others) ->
          faulty (OpSql "events.db" (DeleteExpiredShares now)) = false ->
          exec faulty "events.db" (DeleteExpiredShares now) s
          = (Ok removed,
             {| fs := <["events.db" := TextDbFile d' others]> (fs s);
                console := console s |}))
    /\ (forall r s evs,
          now_expiry r = now ->
          fs s !! "events.db" = Some (DbFile d) -> events d = Some evs ->
          faulty (OpOpen "events.db") = false ->
          (forall q, faulty (OpSql "events.db" q) = false) ->
          finalSize r <= 50 * 1024 * 1024 ->
          exists d2,
            fs (snd (cleanupEventsDB faulty r s)) !! "events.db" = Some (DbFile d2)
            /\ theme_shares d2 = Some kept).
Proof.
  intros Hs kept removed.
  assert (Hk : delete_expired_shares now shares = kept) by apply kept_shares_filter.
  assert (Hx : exec_stmt (DeleteExpiredShares now) d = inr (removed, set_shares d kept)).
  { cbn [exec_stmt]. rewrite Hs, Hk. reflexivity. }
  exists (set_shares d kept).
  split; [exact Hx|]. split; [reflexivity|].
  do 5 (split; [reflexivity|]).
  split; [|split; [|split; [|split; [|split; [|split; [|split]]]]]].
  - intros x. rewrite <- Hk. apply delete_expired_shares_In.
  - intros x t _ He Hlt Hin. rewrite <- Hk in Hin.
    apply delete_expired_shares_In in Hin.
    destruct Hin as [_ [Hn|[t' [He' Hle]]]]; [congruence|].
    rewrite He in He'. injection He' as <-. lia.
  - intros x Hin He. rewrite <- Hk. apply delete_expired_shares_In.
    split; [exact Hin|]. left. exact He.
  - intros x t Hin He Hle. rewrite <- Hk. apply delete_expired_shares_In.
    split; [exact Hin|]. right. exists t. split; assumption.
  - rewrite <- Hk. apply (count_filter_negb (share_expired now)).
  - intros s Hl Hf. apply (exec_on_file _ _ s d _ _ Hl Hf Hx).
  - intros s others Hl Hf. unfold exec. rewrite Hf, Hl. unfold exec_stmt_text.
    rewrite Hx. reflexivity.
  - intros r s evs Hnow Hl Hev Hop Hsql Hsize.
    exists (maintained r d evs shares). split.
    + apply (run_without_rotation_file r s d evs shares Hl Hev Hs Hop Hsql Hsize).
    + cbn [maintained theme_shares]. rewrite Hnow, Hk. reflexivity.
Qed.



End DataStatements.

Lemma age_retention_removes_exactly_old_witness :
  events sample_db = Some sample_events
  /\ exists d',
       exec_stmt (DeleteOldEvents (sevenDaysAgo sample_now)) sample_db = inr (1, d')
       /\ events d'
          = Some [ sample_event 2 long_text (sample_now - 2 * day_ms);
                   sample_event 3 small_payload (sample_now - 7 * day_ms);
                   sample_event 4 long_text (sample_now - 1000);
                   sample_event 5 small_payload sample_now ]
       /\ theme_shares d' = Some sample_shares.
Proof.
  split; [reflexivity|].
  destruct (age_retention_removes_exactly_old no_faults sample_db sample_events
              sample_now eq_refl) as (d' & H1 & H2 & _ & H4 & _).
  exists d'. split; [exact H1|]. split; [exact H2 | exact H4].
Defined.

Lemma share_expiry_removes_exactly_expired_witness :
  theme_shares sample_db = Some sample_shares
  /\ exists d',
       exec_stmt (DeleteExpiredShares sample_now) sample_db = inr (1, d')
       /\ theme_shares d'
          = Some [ sample_share "a" None 3;
                   sample_share "c" (Some sample_now) 7;
                   sample_share "d" (Some (sample_now + day_ms)) 9 ]
       /\ events d' = Some sample_events.
Proof.
  split; [reflexivity|].
  destruct (share_expiry_removes_exactly_expired no_faults sample_db sample_shares
              sample_now eq_refl) as (d' & H1 & H2 & H3 & _).
  exists d'. split; [exact H1|]. split; [exact H2 | exact H3].
Defined.





(** C1, as stated, fails in two ways.  When the rename is refused, the
    size is above 50 * 1024 * 1024, yet no backup exists afterwards and
    the live path still holds the file that steps 1 to 6 produced.  And
    when a file already has the name of the backup, nothing fails, the
    rename replaces that file and no backup file is created. *)
Lemma rotation_by_size_alone_refuted :
  50 * 1024 * 1024 < finalSize large_reads
  /\ fs (snd (cleanupEventsDB rename_refused large_reads sample_state))
       !! backupName (now_backup large_reads) = None
  /\ fs (snd (cleanupEventsDB rename_refused large_reads sample_state))
       !! "events.db"
     = Some (DbFile (maintained large_reads sample_db sample_events sample_shares))
  /\ ~ rotation_by_size_alone rename_refused large_reads sample_state
         (maintained large_reads sample_db sample_events sample_shares)
  /\ fs collision_state !! backupName (now_backup large_reads)
     = Some (DbFile empty_database)
  /\ fs (snd (cleanupEventsDB no_faults large_reads collision_state))
       !! backupName (now_backup large_reads)
     = Some (DbFile sample_db)
  /\ fs (snd (cleanupEventsDB no_faults large_reads collision_state)) !! "events.db"
     = Some (DbFile fresh_database)
  /\ ~ rotation_by_size_alone no_faults large_reads collision_state
         (maintained large_reads sample_db sample_events sample_shares).
Proof.
  split; [reflexivity|].
  assert (Hb : fs (snd (cleanupEventsDB rename_refused large_reads sample_state))
                 !! backupName (now_backup large_reads) = None)
    by (vm_compute; reflexivity).
  assert (Hlive : fs (snd (cleanupEventsDB rename_refused large_reads sample_state))
                    !! "events.db"
                  = Some (DbFile (maintained large_reads sample_db sample_events
                                    sample_shares)))
    by (vm_compute; reflexivity).
  assert (Hold : fs collision_state !! backupName (now_backup large_reads)
                 = Some (DbFile empty_database))
    by (vm_compute; reflexivity).
  split; [exact Hb|]. split; [exact Hlive|]. split; [|split; [exact Hold|split; [|split]]].
  - intros [_ H]. destruct H as ((p & (Hd & Hn & Hs) & _) & _); [reflexivity|].
    destruct (in_dec String.string_dec p
                ["events.db"; "backups"; backupName (now_backup large_reads)])
      as [Hin|Hout].
    + cbn [In] in Hin. destruct Hin as [Hin|[Hin|[Hin|[]]]]; subst p.
      * rewrite dirname_live in Hd. discriminate Hd.
      * rewrite dirname_backups in Hd. discriminate Hd.
      * rewrite Hb in Hs. destruct Hs as [x Hx]. discriminate Hx.
    + rewrite (touches_only_cleanup rename_refused large_reads sample_state p Hout), Hn
        in Hs.
      destruct Hs as [x Hx]. discriminate Hx.
  - vm_compute. reflexivity.
  - vm_compute. reflexivity.
  - intros [_ H]. destruct H as ((p & (Hd & Hn & Hs) & _) & _); [reflexivity|].
    destruct (in_dec String.string_dec p
                ["events.db"; "backups"; backupName (now_backup large_reads)])
      as [Hin|Hout].
    + cbn [In] in Hin. destruct Hin as [Hin|[Hin|[Hin|[]]]]; subst p.
      * rewrite dirname_live in Hd. discriminate Hd.
      * rewrite dirname_backups in Hd. discriminate Hd.
      * rewrite Hold in Hn. discriminate Hn.
    + rewrite (touches_only_cleanup no_faults large_reads collision_state p Hout), Hn
        in Hs.
      destruct Hs as [x Hx]. discriminate Hx.
Qed.
